(** * Order lifecycle and M-Pesa payment reconciliation

    A shallow embedding of the order service
    ([order.service.ts], [order.repository.ts], [order.types.ts]) and of the
    payment service ([mpesa.service.ts], [transaction.repository.ts], the
    callback route of [index.ts]), with the properties the specification
    states about them.

    Modelling conventions.
    - Every [async] method becomes a computation in the monad [M]: a function
      from the world to an outcome and the world it leaves.  A thrown
      exception keeps the world as it was when it was thrown, as in
      JavaScript: nothing is rolled back.
    - The world holds the Firestore collections, the readings the clock will
      give, the identifiers and random numbers the runtime will hand out, the
      behaviour of the remote HTTP services, the requests sent so far and the
      lines written with [console.error].
    - Firestore accepts every write of a field value; of its failure modes
      only the one of [update] on a document that does not exist is kept.
    - Order amounts are integers (whole currency units below 2^53, on which
      the double arithmetic of JavaScript is exact); the amount of a payment
      request is a rational, so that [Math.floor] has its meaning. *)

From Stdlib Require Import Ascii String QArith Qround.
From stdpp Require Import base option list strings pretty gmap.

Local Open Scope string_scope.
Local Open Scope Z_scope.

(* ===================================================================== *)
(** * JavaScript values, exceptions and effects *)
(* ===================================================================== *)

Module Js.

(** Scalar values that the code copies without looking inside. *)
Inductive value :=
| VUndefined
| VNull
| VBool (b : bool)
| VNum (q : Q)
| VStr (s : string).

(** [v === s] for a string literal [s]. *)
Definition strict_eq_str (v : value) (s : string) : bool :=
  match v with
  | VStr t => String.eqb t s
  | _ => false
  end.

(** A [Date] object, through the accessors the code calls on it. *)
Record Date := mkDate {
  getTime : Z;
  getFullYear : N;
  getMonth : N;
  getDate : N;
  getHours : N;
  getMinutes : N;
  getSeconds : N
}.

(** An [Error] object: its [message] and, for an error raised by axios on
    an HTTP error status, [error.response?.data?.errorMessage]. *)
Record exn := mkExn {
  message : string;
  response_errorMessage : option string
}.

Definition Error (msg : string) : exn := mkExn msg None.

Inductive result (A : Type) :=
| Ok (a : A)
| Throw (e : exn).
Arguments Ok {A} a.
Arguments Throw {A} e.

(** [a || b] on optional strings: [undefined] and [''] are falsy. *)
Definition or_else (a : option string) (b : string) : string :=
  match a with
  | Some s => if String.eqb s EmptyString then b else s
  | None => b
  end.

(** [s.padStart(n, '0')] *)
Fixpoint zeros (n : nat) : string :=
  match n with
  | O => EmptyString
  | S k => "0" +:+ zeros k
  end.

Definition padStart0 (n : nat) (s : string) : string :=
  zeros (n - String.length s) +:+ s.

(** [s.slice(-n)] *)
Definition slice_last (n : nat) (s : string) : string :=
  String.substring (String.length s - n) n s.

(** [s.substring(0, n)] and [s.substring(n)] *)
Definition substring_to (n : nat) (s : string) : string := String.substring 0 n s.
Definition substring_from (n : nat) (s : string) : string :=
  String.substring n (String.length s - n) s.

End Js.
Export Js.

(* ===================================================================== *)
(** * order.types.ts *)
(* ===================================================================== *)

Module OrderStatus.
Inductive t :=
| PENDING | CONFIRMED | PROCESSING | SHIPPED
| DELIVERED | CANCELLED | REFUNDED | FAILED.

Definition eqb (a b : t) : bool :=
  match a, b with
  | PENDING, PENDING | CONFIRMED, CONFIRMED | PROCESSING, PROCESSING
  | SHIPPED, SHIPPED | DELIVERED, DELIVERED | CANCELLED, CANCELLED
  | REFUNDED, REFUNDED | FAILED, FAILED => true
  | _, _ => false
  end.

(** The string each member of the enum stands for. *)
Definition to_string (s : t) : string :=
  match s with
  | PENDING => "pending"
  | CONFIRMED => "confirmed"
  | PROCESSING => "processing"
  | SHIPPED => "shipped"
  | DELIVERED => "delivered"
  | CANCELLED => "cancelled"
  | REFUNDED => "refunded"
  | FAILED => "failed"
  end.

(** [list.includes(s)] *)
Definition includes (l : list t) (s : t) : bool := existsb (eqb s) l.
End OrderStatus.

Module PaymentStatus.
Inductive t := PENDING | PAID | FAILED | REFUNDED | PARTIALLY_REFUNDED.

Definition eqb (a b : t) : bool :=
  match a, b with
  | PENDING, PENDING | PAID, PAID | FAILED, FAILED
  | REFUNDED, REFUNDED | PARTIALLY_REFUNDED, PARTIALLY_REFUNDED => true
  | _, _ => false
  end.
End PaymentStatus.

Module ShippingStatus.
Inductive t :=
| PENDING | PROCESSING | SHIPPED | IN_TRANSIT
| OUT_FOR_DELIVERY | DELIVERED | FAILED | RETURNED.
End ShippingStatus.

Inductive PaymentMethod := mpesa | card | bank_transfer | cod.

Module Address.
Record t := mk {
  street : string;
  city : string;
  state : string;
  country : string;
  postalCode : string;
  phone : string;
  email : option string;
  notes : option string
}.
End Address.

Module OrderItem.
Record t := mk {
  productId : string;
  variantId : option string;
  sku : string;
  name : string;
  quantity : Z;
  price : Z;
  discount : Z;
  tax : Z;
  total : Z;
  image : option string
}.
End OrderItem.

Module CreateOrderRequest.
(** [metadata] is not declared by [CreateOrderSchema]; [createOrder] reads
    [request.metadata?.userAgent] and [request.metadata?.ip] all the same. *)
Record t := mk {
  userId : string;
  items : list OrderItem.t;
  shippingAddress : Address.t;
  billingAddress : option Address.t;
  paymentMethod : PaymentMethod;
  shippingMethod : string;
  shippingCost : Z;
  discount : Z;
  tax : Z;
  subtotal : Z;
  total : Z;
  currency : string;
  notes : option string;
  couponCode : option string;
  metadata : option (gmap string value)
}.
End CreateOrderRequest.

Module StatusHistoryEntry.
Record t := mk { timestamp : Date; reason : string }.
End StatusHistoryEntry.

Module Order.
(** The order document.  Of the optional fields of the interface, those no
    modelled operation writes ([adminNotes], [trackingNumber], [carrier],
    the delivery and refund fields) are left out. *)
Record t := mk {
  id : string;
  orderNumber : string;
  userId : string;
  items : list OrderItem.t;
  shippingAddress : Address.t;
  billingAddress : Address.t;
  status : OrderStatus.t;
  paymentStatus : PaymentStatus.t;
  shippingStatus : ShippingStatus.t;
  paymentMethod : PaymentMethod;
  shippingMethod : string;
  subtotal : Z;
  shippingCost : Z;
  discount : Z;
  tax : Z;
  total : Z;
  currency : string;
  couponCode : option string;
  notes : option string;
  cancelledAt : option Date;
  cancelledBy : option string;
  cancellationReason : option string;
  paymentTransactionId : option string;
  statusHistory : gmap string StatusHistoryEntry.t;
  metadata : gmap string value;
  createdAt : Date;
  updatedAt : Date
}.
End Order.

Module UserOrder.
(** A document of the per-user index [user_orders]. *)
Record t := mk {
  userId : string;
  orderId : string;
  orderNumber : string;
  status : OrderStatus.t;
  total : Z;
  createdAt : Date;
  updatedAt : option Date
}.
End UserOrder.

(* ===================================================================== *)
(** * mpesa.config.ts, mpesa.service.ts and transaction.repository.ts: types *)
(* ===================================================================== *)

Inductive Environment := sandbox | production.

Module MpesaConfig.
Record t := mk {
  environment : Environment;
  consumerKey : string;
  consumerSecret : string;
  shortCode : string;
  passKey : string;
  initiatorName : string;
  initiatorPassword : string;
  callbackUrl : string
}.
End MpesaConfig.

Module STKPushRequest.
Record t := mk {
  phone : string;
  amount : Q;
  orderId : string;
  description : option string;
  accountReference : option string
}.
End STKPushRequest.

Module STKPushResponse.
Record t := mk {
  merchantRequestId : option string;
  checkoutRequestId : option string;
  responseCode : option string;
  responseDescription : option string;
  customerMessage : option string
}.
End STKPushResponse.

(** The body of the push-payment request sent to the gateway. *)
Module StkPayload.
Record t := mk {
  BusinessShortCode : string;
  Password : string;
  Timestamp : string;
  TransactionType : string;
  Amount : Z;
  PartyA : string;
  PartyB : string;
  PhoneNumber : string;
  CallBackURL : string;
  AccountReference : string;
  TransactionDesc : string
}.
End StkPayload.

(** What [Body.stkCallback.ResultCode] can hold.  The route reads the body
    as [any]: the gateway documents a number, the handler compares with a
    string, and a sender may leave the field out. *)
Inductive ResultCodeValue :=
| RcNullish                    (* the field is absent, or null *)
| RcString (s : string)
| RcNumber (n : Z)             (* an integral number *)
| RcOther (rendering : string). (* any other value, with what its toString() returns *)

(** [resultCode === '0'] *)
Definition rc_is_string_0 (rc : ResultCodeValue) : bool :=
  match rc with
  | RcString s => String.eqb s "0"
  | _ => false
  end.

(** [resultCode.toString()] *)
Definition rc_toString (rc : ResultCodeValue) : result string :=
  match rc with
  | RcNullish =>
      Throw (Error "Cannot read properties of undefined (reading 'toString')")
  | RcString s => Ok s
  | RcNumber n => Ok (pretty n)
  | RcOther r => Ok r
  end.

Module CallbackItem.
Record t := mk { Name : value; Value : value }.
End CallbackItem.

Module CallbackMetadata.
Record t := mk { Item : option (list CallbackItem.t) }.
End CallbackMetadata.

Module StkCallback.
Record t := mk {
  MerchantRequestID : value;
  CheckoutRequestID : string;
  ResultCode : ResultCodeValue;
  ResultDesc : value;
  CallbackMetadata : option CallbackMetadata.t
}.
End StkCallback.

Module CallbackBody.
Record t := mk { stkCallback : option StkCallback.t }.
End CallbackBody.

Module Callback.
Record t := mk { Body : option CallbackBody.t }.
End Callback.

Inductive TransactionStatus := initiated | pending | completed | failed | cancelled.

Module Transaction.
(** The data of a document of [mpesa_transactions].  [phone], [amount],
    [mpesaReceiptNumber] and [transactionDate] hold whatever the callback
    carried, hence [value].  [queryResponse] is left out: the status query
    is not modelled. *)
Record t := mk {
  orderId : string;
  merchantRequestId : option string;
  checkoutRequestId : option string;
  phone : value;
  amount : value;
  status : TransactionStatus;
  responseCode : option string;
  responseDescription : option string;
  resultCode : option string;
  resultDescription : option value;
  mpesaReceiptNumber : option value;
  transactionDate : option value;
  errorMessage : option string;
  callbackData : option Callback.t;
  environment : Environment;
  createdAt : Date;
  updatedAt : Date
}.
End Transaction.

(** [Omit<Transaction, 'id' | 'createdAt' | 'updatedAt'>], with the fields
    the two callers of [createTransaction] pass. *)
Module NewTransaction.
Record t := mk {
  orderId : string;
  merchantRequestId : option string;
  checkoutRequestId : option string;
  phone : value;
  amount : value;
  status : TransactionStatus;
  responseCode : option string;
  responseDescription : option string;
  errorMessage : option string;
  environment : Environment
}.
End NewTransaction.

(** [Partial<Transaction>]: [None] is a key the object does not have. *)
Module TransactionPatch.
Record t := mk {
  status : option TransactionStatus;
  resultCode : option string;
  resultDescription : option value;
  callbackData : option Callback.t;
  amount : option value;
  mpesaReceiptNumber : option value;
  transactionDate : option value;
  phone : option value
}.

Definition empty : t := mk None None None None None None None None.
End TransactionPatch.

(** A document of [mpesa_transactions]: its identifier and its data. *)
Module TxDoc.
Record t := mk { id : string; data : Transaction.t }.
End TxDoc.

(* ===================================================================== *)
(** * The world: collections, clock, runtime and remote services *)
(* ===================================================================== *)

Inductive HttpRequest :=
| InventoryValidate (items : list OrderItem.t)
| InventoryReserve (orderId : string) (items : list OrderItem.t)
| InventoryRelease (orderId : string) (items : list OrderItem.t)
| PaymentsRefund (orderId : string) (transactionId : option string)
    (amount : Z) (reason : option string)
| NotificationsEmail (to : string) (orderNumber : string)
    (items : list OrderItem.t) (total : Z) (shippingAddress : Address.t)
| OAuthGenerate (username password : string)
| StkPushProcessRequest (bearer : string) (payload : StkPayload.t).

(** [response.data], with the fields the two services read from it. *)
Module ResponseData.
Record t := mk {
  valid : bool;
  message : string;
  access_token : option string;
  MerchantRequestID : option string;
  CheckoutRequestID : option string;
  ResponseCode : option string;
  ResponseDescription : option string;
  CustomerMessage : option string
}.
End ResponseData.

(** What axios does with a request: it resolves with the response, or
    rejects (no connection, time-out, or an HTTP error status) with an error
    carrying a message and, if the response body had one, [errorMessage]. *)
Inductive HttpResponse :=
| Http2xx (data : ResponseData.t)
| HttpFailure (message : string) (errorMessage : option string).

Record World := mkWorld {
  orders : gmap string Order.t;
  user_orders : gmap string UserOrder.t;
  mpesa_transactions : list TxDoc.t;
  clock : nat -> Date;            (* the successive readings of the clock *)
  ticks : nat;                    (* how many have been taken *)
  auto_ids : nat -> string;       (* the identifiers Firestore will mint *)
  minted : nat;
  randoms : nat -> N;             (* the values of Math.floor(Math.random() * 10000) *)
  drawn : nat;
  remote : HttpRequest -> HttpResponse;
  calls : list HttpRequest;       (* the requests sent, oldest first *)
  console : list (string * string) (* console.error: label and message *)
}.

Definition M (A : Type) : Type := World -> result A * World.

Definition ret {A} (a : A) : M A := fun w => (Ok a, w).

Definition bind {A B} (m : M A) (k : A -> M B) : M B :=
  fun w =>
    match m w with
    | (Ok a, w') => k a w'
    | (Throw e, w') => (Throw e, w')
    end.

Definition throw {A} (e : exn) : M A := fun w => (Throw e, w).

(** [try { m } catch (error) { handler(error) }] *)
Definition try_catch {A} (m : M A) (handler : exn -> M A) : M A :=
  fun w =>
    match m w with
    | (Ok a, w') => (Ok a, w')
    | (Throw e, w') => handler e w'
    end.

(** A synchronous call that may throw. *)
Definition lift {A} (r : result A) : M A := fun w => (r, w).

Notation "x <- c1 ;; c2" := (bind c1 (fun x => c2))
  (at level 100, c1 at next level, right associativity).
Notation "c1 ;; c2" := (bind c1 (fun _ => c2))
  (at level 100, right associativity).

(** [new Date()] and [Date.now()] *)
Definition new_Date : M Date :=
  fun w =>
    (Ok (clock w (ticks w)),
     mkWorld (orders w) (user_orders w) (mpesa_transactions w)
       (clock w) (S (ticks w)) (auto_ids w) (minted w) (randoms w) (drawn w)
       (remote w) (calls w) (console w)).

(** The identifier of a new document reference. *)
Definition auto_id : M string :=
  fun w =>
    (Ok (auto_ids w (minted w)),
     mkWorld (orders w) (user_orders w) (mpesa_transactions w)
       (clock w) (ticks w) (auto_ids w) (S (minted w)) (randoms w) (drawn w)
       (remote w) (calls w) (console w)).

(** [Math.floor(Math.random() * 10000)] *)
Definition random_10000 : M N :=
  fun w =>
    (Ok (randoms w (drawn w)),
     mkWorld (orders w) (user_orders w) (mpesa_transactions w)
       (clock w) (ticks w) (auto_ids w) (minted w) (randoms w) (S (drawn w))
       (remote w) (calls w) (console w)).

Definition send (req : HttpRequest) (w : World) : World :=
  mkWorld (orders w) (user_orders w) (mpesa_transactions w)
    (clock w) (ticks w) (auto_ids w) (minted w) (randoms w) (drawn w)
    (remote w) (calls w ++ [req]) (console w).

(** [await axios.post(...)] / [await axios.get(...)] *)
Definition axios (req : HttpRequest) : M ResponseData.t :=
  fun w =>
    match remote w req with
    | Http2xx data => (Ok data, send req w)
    | HttpFailure msg em => (Throw (mkExn msg em), send req w)
    end.

(** A request whose promise is not awaited: it is sent, and what comes back
    is handled after the caller has returned. *)
Definition axios_detached (req : HttpRequest) : M unit :=
  fun w => (Ok tt, send req w).

Definition console_error (label msg : string) : M unit :=
  fun w =>
    (Ok tt,
     mkWorld (orders w) (user_orders w) (mpesa_transactions w)
       (clock w) (ticks w) (auto_ids w) (minted w) (randoms w) (drawn w)
       (remote w) (calls w) (console w ++ [(label, msg)])).

Definition set_orders (f : gmap string Order.t -> gmap string Order.t) (w : World) : World :=
  mkWorld (f (orders w)) (user_orders w) (mpesa_transactions w)
    (clock w) (ticks w) (auto_ids w) (minted w) (randoms w) (drawn w)
    (remote w) (calls w) (console w).

Definition set_user_orders (f : gmap string UserOrder.t -> gmap string UserOrder.t)
    (w : World) : World :=
  mkWorld (orders w) (f (user_orders w)) (mpesa_transactions w)
    (clock w) (ticks w) (auto_ids w) (minted w) (randoms w) (drawn w)
    (remote w) (calls w) (console w).

Definition set_mpesa_transactions (f : list TxDoc.t -> list TxDoc.t) (w : World) : World :=
  mkWorld (orders w) (user_orders w) (f (mpesa_transactions w))
    (clock w) (ticks w) (auto_ids w) (minted w) (randoms w) (drawn w)
    (remote w) (calls w) (console w).

(* ===================================================================== *)
(** * order.repository.ts *)
(* ===================================================================== *)

(** The [Partial<Order>] that [create] receives.  Its spread comes after the
    defaults of [create], so the keys it has replace [id], [orderNumber] and
    the three statuses; [None] is a key it does not have. *)
Module OrderData.
Record t := mk {
  id : option string;
  orderNumber : option string;
  status : option OrderStatus.t;
  paymentStatus : option PaymentStatus.t;
  shippingStatus : option ShippingStatus.t;
  userId : string;
  items : list OrderItem.t;
  shippingAddress : Address.t;
  billingAddress : Address.t;
  paymentMethod : PaymentMethod;
  shippingMethod : string;
  subtotal : Z;
  shippingCost : Z;
  discount : Z;
  tax : Z;
  total : Z;
  currency : string;
  couponCode : option string;
  notes : option string;
  metadata : gmap string value
}.
End OrderData.

(** The field writes of a Firestore [update] on an order document. *)
Module OrderPatch.
Record t := mk {
  status : option OrderStatus.t;
  cancelledAt : option Date;
  cancelledBy : option string;
  cancellationReason : option string;
  statusHistoryEntry : option (string * StatusHistoryEntry.t);
  updatedAt : option Date
}.

Definition apply (p : t) (o : Order.t) : Order.t :=
  Order.mk (Order.id o) (Order.orderNumber o) (Order.userId o) (Order.items o)
    (Order.shippingAddress o) (Order.billingAddress o)
    (default (Order.status o) (status p))
    (Order.paymentStatus o) (Order.shippingStatus o)
    (Order.paymentMethod o) (Order.shippingMethod o)
    (Order.subtotal o) (Order.shippingCost o) (Order.discount o)
    (Order.tax o) (Order.total o) (Order.currency o)
    (Order.couponCode o) (Order.notes o)
    (match cancelledAt p with Some d => Some d | None => Order.cancelledAt o end)
    (match cancelledBy p with Some s => Some s | None => Order.cancelledBy o end)
    (match cancellationReason p with
     | Some s => Some s
     | None => Order.cancellationReason o
     end)
    (Order.paymentTransactionId o)
    (match statusHistoryEntry p with
     | Some (k, e) => <[k := e]> (Order.statusHistory o)
     | None => Order.statusHistory o
     end)
    (Order.metadata o) (Order.createdAt o)
    (default (Order.updatedAt o) (updatedAt p)).
End OrderPatch.

Module OrderRepository.

Definition not_found : exn := Error "5 NOT_FOUND: No document to update".

(** [this.collection.doc(id).update(patch)] *)
Definition orders_update (id : string) (p : OrderPatch.t) : M unit :=
  fun w =>
    match orders w !! id with
    | Some o => (Ok tt, set_orders (insert id (OrderPatch.apply p o)) w)
    | None => (Throw not_found, w)
    end.

(** [this.userOrdersCollection.doc(key).update({ status, updatedAt })] *)
Definition user_orders_update (key : string) (status : OrderStatus.t)
    (updatedAt : Date) : M unit :=
  fun w =>
    match user_orders w !! key with
    | Some u =>
        (Ok tt,
         set_user_orders
           (insert key
              (UserOrder.mk (UserOrder.userId u) (UserOrder.orderId u)
                 (UserOrder.orderNumber u) status (UserOrder.total u)
                 (UserOrder.createdAt u) (Some updatedAt))) w)
    | None => (Throw not_found, w)
    end.

Definition generateOrderNumber : M string :=
  now <- new_Date ;;
  r <- random_10000 ;;
  let timestamp := slice_last 6 (pretty (getTime now)) in
  let random := padStart0 4 (pretty r) in
  ret ("ORD-" +:+ timestamp +:+ random).

Definition index_key (userId orderId : string) : string :=
  userId +:+ "_" +:+ orderId.

Definition create (orderData : OrderData.t) : M Order.t :=
  ref_id <- auto_id ;;
  timestamp <- new_Date ;;
  number <- generateOrderNumber ;;
  let order :=
    Order.mk
      (default ref_id (OrderData.id orderData))
      (default number (OrderData.orderNumber orderData))
      (OrderData.userId orderData) (OrderData.items orderData)
      (OrderData.shippingAddress orderData) (OrderData.billingAddress orderData)
      (default OrderStatus.PENDING (OrderData.status orderData))
      (default PaymentStatus.PENDING (OrderData.paymentStatus orderData))
      (default ShippingStatus.PENDING (OrderData.shippingStatus orderData))
      (OrderData.paymentMethod orderData) (OrderData.shippingMethod orderData)
      (OrderData.subtotal orderData) (OrderData.shippingCost orderData)
      (OrderData.discount orderData) (OrderData.tax orderData)
      (OrderData.total orderData) (OrderData.currency orderData)
      (OrderData.couponCode orderData) (OrderData.notes orderData)
      None None None None ∅
      (OrderData.metadata orderData) timestamp timestamp in
  let entry :=
    UserOrder.mk (Order.userId order) (Order.id order) (Order.orderNumber order)
      (Order.status order) (Order.total order) timestamp None in
  (* firestore.runTransaction: both documents are written together *)
  (fun w =>
     (Ok tt,
      set_user_orders
        (insert (index_key (Order.userId order) (Order.id order)) entry)
        (set_orders (insert ref_id order) w))) ;;
  ret order.

Definition findById (id : string) : M (option Order.t) :=
  fun w => (Ok (orders w !! id), w).

(** [update(id, data)] with [data] the object [cancelOrder] passes. *)
Definition update (id : string) (data : OrderPatch.t) : M unit :=
  now <- new_Date ;;
  orders_update id
    (OrderPatch.mk (OrderPatch.status data) (OrderPatch.cancelledAt data)
       (OrderPatch.cancelledBy data) (OrderPatch.cancellationReason data)
       (OrderPatch.statusHistoryEntry data) (Some now)).

Definition updateStatus (id : string) (status : OrderStatus.t)
    (reason : option string) : M unit :=
  found <- findById id ;;
  match found with
  | None => throw (Error "Order not found")
  | Some order =>
      (* ...(reason && { [`statusHistory.${status}`]: { timestamp, reason } }) *)
      history <-
        match reason with
        | Some r =>
            if String.eqb r EmptyString then ret None
            else
              (t <- new_Date ;;
               ret (Some (OrderStatus.to_string status, StatusHistoryEntry.mk t r)))
        | None => ret None
        end ;;
      now <- new_Date ;;
      orders_update id (OrderPatch.mk (Some status) None None None history (Some now)) ;;
      now' <- new_Date ;;
      user_orders_update (index_key (Order.userId order) id) status now'
  end.

End OrderRepository.

(* ===================================================================== *)
(** * order.service.ts *)
(* ===================================================================== *)

Module OrderService.

Definition getOrder (orderId : string) : M (option Order.t) :=
  OrderRepository.findById orderId.

Definition validateInventory (items : list OrderItem.t) : M unit :=
  try_catch
    (response <- axios (InventoryValidate items) ;;
     if negb (ResponseData.valid response)
     then throw (Error ("Inventory validation failed: "
                        +:+ ResponseData.message response))
     else ret tt)
    (fun error =>
       console_error "Inventory validation error:" (message error) ;;
       throw (Error "Failed to validate inventory")).

Definition validTransitions (current : OrderStatus.t) : list OrderStatus.t :=
  match current with
  | OrderStatus.PENDING =>
      [OrderStatus.CONFIRMED; OrderStatus.CANCELLED; OrderStatus.FAILED]
  | OrderStatus.CONFIRMED =>
      [OrderStatus.PROCESSING; OrderStatus.CANCELLED; OrderStatus.REFUNDED]
  | OrderStatus.PROCESSING => [OrderStatus.SHIPPED; OrderStatus.CANCELLED]
  | OrderStatus.SHIPPED => [OrderStatus.DELIVERED; OrderStatus.CANCELLED]
  | OrderStatus.DELIVERED => [OrderStatus.REFUNDED]
  | OrderStatus.CANCELLED => []
  | OrderStatus.REFUNDED => []
  | OrderStatus.FAILED => [OrderStatus.PENDING; OrderStatus.CANCELLED]
  end.

Definition invalid_transition (current next : OrderStatus.t) : exn :=
  Error ("Cannot transition from " +:+ OrderStatus.to_string current
         +:+ " to " +:+ OrderStatus.to_string next).

Definition validateStatusTransition (current next : OrderStatus.t) : result unit :=
  if negb (OrderStatus.includes (validTransitions current) next)
  then Throw (invalid_transition current next)
  else Ok tt.

Definition calculateTotals (request : CreateOrderRequest.t) : Z * Z :=
  let subtotal :=
    fold_left
      (fun sum item => sum + OrderItem.price item * OrderItem.quantity item)
      (CreateOrderRequest.items request) 0 in
  let total :=
    subtotal + CreateOrderRequest.shippingCost request
    - CreateOrderRequest.discount request + CreateOrderRequest.tax request in
  (subtotal, total).

Definition reserveInventory (orderId : string) (items : list OrderItem.t) : M unit :=
  try_catch
    (axios (InventoryReserve orderId items) ;; ret tt)
    (fun error => console_error "Inventory reservation error:" (message error)).

Definition releaseInventory (orderId : string) (items : list OrderItem.t) : M unit :=
  try_catch
    (axios (InventoryRelease orderId items) ;; ret tt)
    (fun error => console_error "Inventory release error:" (message error)).

Definition refund_request (order : Order.t) : HttpRequest :=
  PaymentsRefund (Order.id order) (Order.paymentTransactionId order)
    (Order.total order) (Order.cancellationReason order).

Definition initiateRefund (order : Order.t) : M unit :=
  try_catch
    (axios (refund_request order) ;; ret tt)
    (fun error => console_error "Refund initiation error:" (message error)).

(** Called without [await]: the request leaves, its outcome is logged
    later and never reaches the caller. *)
Definition sendOrderConfirmation (order : Order.t) : M unit :=
  axios_detached
    (NotificationsEmail (Order.userId order) (Order.orderNumber order)
       (Order.items order) (Order.total order) (Order.shippingAddress order)).

(** Both publishers only write to [console.log]. *)
Definition publishOrderCreated (order : Order.t) : M unit := ret tt.
Definition publishOrderStatusChanged (orderId : string)
    (status : OrderStatus.t) (reason : option string) : M unit := ret tt.

Definition request_metadata (request : CreateOrderRequest.t) (key : string) : value :=
  match CreateOrderRequest.metadata request with
  | Some m => default VUndefined (m !! key)
  | None => VUndefined
  end.

Definition createOrder (request : CreateOrderRequest.t) : M Order.t :=
  try_catch
    (validateInventory (CreateOrderRequest.items request) ;;
     let calculated := calculateTotals request in
     order <-
       OrderRepository.create
         (OrderData.mk None None None None None
            (CreateOrderRequest.userId request)
            (CreateOrderRequest.items request)
            (CreateOrderRequest.shippingAddress request)
            (default (CreateOrderRequest.shippingAddress request)
               (CreateOrderRequest.billingAddress request))
            (CreateOrderRequest.paymentMethod request)
            (CreateOrderRequest.shippingMethod request)
            (fst calculated)
            (CreateOrderRequest.shippingCost request)
            (CreateOrderRequest.discount request)
            (CreateOrderRequest.tax request)
            (snd calculated)
            (CreateOrderRequest.currency request)
            (CreateOrderRequest.couponCode request)
            (CreateOrderRequest.notes request)
            (<["userAgent" := request_metadata request "userAgent"]>
               (<["ip" := request_metadata request "ip"]>
                  {["source" := VStr "web"]}))) ;;
     reserveInventory (Order.id order) (CreateOrderRequest.items request) ;;
     publishOrderCreated order ;;
     sendOrderConfirmation order ;;
     ret order)
    (fun error =>
       console_error "Create order error:" (message error) ;;
       throw error).

(** [return (await this.orderRepo.findById(orderId))!]: the assertion [!]
    does nothing at run time, the result is what [findById] gives. *)
Definition updateOrderStatus (orderId : string) (status : OrderStatus.t)
    (reason : option string) : M (option Order.t) :=
  found <- OrderRepository.findById orderId ;;
  match found with
  | None => throw (Error "Order not found")
  | Some order =>
      lift (validateStatusTransition (Order.status order) status) ;;
      OrderRepository.updateStatus orderId status reason ;;
      publishOrderStatusChanged orderId status reason ;;
      OrderRepository.findById orderId
  end.

Definition cancelOrder (orderId reason cancelledBy : string) : M (option Order.t) :=
  found <- OrderRepository.findById orderId ;;
  match found with
  | None => throw (Error "Order not found")
  | Some order =>
      if negb (OrderStatus.includes
                 [OrderStatus.PENDING; OrderStatus.CONFIRMED] (Order.status order))
      then throw (Error "Order cannot be cancelled at this stage")
      else
        (now <- new_Date ;;
         OrderRepository.update orderId
           (OrderPatch.mk (Some OrderStatus.CANCELLED) (Some now)
              (Some cancelledBy) (Some reason) None None) ;;
         releaseInventory orderId (Order.items order) ;;
         (if PaymentStatus.eqb (Order.paymentStatus order) PaymentStatus.PAID
          then initiateRefund order
          else ret tt) ;;
         OrderRepository.findById orderId)
  end.

End OrderService.

(* ===================================================================== *)
(** * transaction.repository.ts *)
(* ===================================================================== *)

Module TransactionRepository.

(** A query without [orderBy] lists documents by identifier: the
    collection is kept in that order. *)
Fixpoint add_doc (d : TxDoc.t) (l : list TxDoc.t) : list TxDoc.t :=
  match l with
  | [] => [d]
  | x :: rest =>
      if String.ltb (TxDoc.id d) (TxDoc.id x) then d :: l
      else x :: add_doc d rest
  end.

(** [where('checkoutRequestId', '==', checkoutRequestId)] *)
Definition has_checkout (checkoutRequestId : string) (d : TxDoc.t) : bool :=
  match Transaction.checkoutRequestId (TxDoc.data d) with
  | Some c => String.eqb c checkoutRequestId
  | None => false
  end.

Definition createTransaction (data : NewTransaction.t) : M string :=
  timestamp <- new_Date ;;
  ref_id <- auto_id ;;
  let doc :=
    TxDoc.mk ref_id
      (Transaction.mk
         (NewTransaction.orderId data)
         (NewTransaction.merchantRequestId data)
         (NewTransaction.checkoutRequestId data)
         (NewTransaction.phone data)
         (NewTransaction.amount data)
         (NewTransaction.status data)
         (NewTransaction.responseCode data)
         (NewTransaction.responseDescription data)
         None None None None
         (NewTransaction.errorMessage data)
         None
         (NewTransaction.environment data)
         timestamp timestamp) in
  (fun w => (Ok tt, set_mpesa_transactions (add_doc doc) w)) ;;
  ret ref_id.

(** [docRef.update({ ...updates, updatedAt })] on the data of a document. *)
Definition merge (updates : TransactionPatch.t) (updatedAt : Date)
    (t : Transaction.t) : Transaction.t :=
  Transaction.mk
    (Transaction.orderId t)
    (Transaction.merchantRequestId t)
    (Transaction.checkoutRequestId t)
    (default (Transaction.phone t) (TransactionPatch.phone updates))
    (default (Transaction.amount t) (TransactionPatch.amount updates))
    (default (Transaction.status t) (TransactionPatch.status updates))
    (Transaction.responseCode t)
    (Transaction.responseDescription t)
    (match TransactionPatch.resultCode updates with
     | Some c => Some c
     | None => Transaction.resultCode t
     end)
    (match TransactionPatch.resultDescription updates with
     | Some v => Some v
     | None => Transaction.resultDescription t
     end)
    (match TransactionPatch.mpesaReceiptNumber updates with
     | Some v => Some v
     | None => Transaction.mpesaReceiptNumber t
     end)
    (match TransactionPatch.transactionDate updates with
     | Some v => Some v
     | None => Transaction.transactionDate t
     end)
    (Transaction.errorMessage t)
    (match TransactionPatch.callbackData updates with
     | Some c => Some c
     | None => Transaction.callbackData t
     end)
    (Transaction.environment t)
    (Transaction.createdAt t)
    updatedAt.

(** The write to [snapshot.docs[0].ref]: the first document of the
    collection that the query selects. *)
Fixpoint update_first (p : TxDoc.t -> bool) (f : Transaction.t -> Transaction.t)
    (l : list TxDoc.t) : list TxDoc.t :=
  match l with
  | [] => []
  | x :: rest =>
      if p x then TxDoc.mk (TxDoc.id x) (f (TxDoc.data x)) :: rest
      else x :: update_first p f rest
  end.

Definition findByCheckoutRequestId (checkoutRequestId : string)
    : M (option TxDoc.t) :=
  fun w =>
    (Ok (List.find (has_checkout checkoutRequestId) (mpesa_transactions w)), w).

Definition updateTransaction (checkoutRequestId : string)
    (updates : TransactionPatch.t) : M unit :=
  snapshot <- findByCheckoutRequestId checkoutRequestId ;;
  match snapshot with
  | None => throw (Error ("Transaction not found: " +:+ checkoutRequestId))
  | Some _ =>
      now <- new_Date ;;
      fun w =>
        (Ok tt,
         set_mpesa_transactions
           (update_first (has_checkout checkoutRequestId) (merge updates now)) w)
  end.

End TransactionRepository.

(* ===================================================================== *)
(** * mpesa.service.ts *)
(* ===================================================================== *)

Module MpesaService.

Definition is_digit (c : ascii) : bool :=
  let n := N_of_ascii c in ((48 <=? n) && (n <=? 57))%N.

(** [phone.replace(/\D/g, '')] *)
Fixpoint remove_non_digits (s : string) : string :=
  match s with
  | EmptyString => EmptyString
  | String c rest =>
      if is_digit c then String c (remove_non_digits rest)
      else remove_non_digits rest
  end.

Definition invalid_phone : exn :=
  Error "Invalid phone number format. Use: 2547XXXXXXXX".

Definition validateAndFormatPhone (phone : string) : result string :=
  let cleaned := remove_non_digits phone in
  if String.prefix "0" cleaned && (String.length cleaned =? 10)%nat
  then Ok ("254" +:+ substring_from 1 cleaned)
  else if String.prefix "7" cleaned && (String.length cleaned =? 9)%nat
  then Ok ("254" +:+ cleaned)
  else if negb (String.prefix "254" cleaned)
          || negb (String.length cleaned =? 12)%nat
  then Throw invalid_phone
  else Ok cleaned.

Definition amount_not_positive : exn := Error "Amount must be greater than 0".
Definition amount_below_minimum : exn :=
  Error "Minimum amount for production is KES 10".

Definition is_production (config : MpesaConfig.t) : bool :=
  match MpesaConfig.environment config with
  | production => true
  | sandbox => false
  end.

Definition validateAmount (config : MpesaConfig.t) (amount : Q) : result Z :=
  if Qle_bool amount 0 then Throw amount_not_positive
  else if is_production config && negb (Qle_bool 10 amount)
  then Throw amount_below_minimum
  else Ok (Qfloor amount).

Definition getAccessToken (config : MpesaConfig.t) : M string :=
  try_catch
    (response <-
       axios (OAuthGenerate (MpesaConfig.consumerKey config)
                (MpesaConfig.consumerSecret config)) ;;
     match ResponseData.access_token response with
     | Some token =>
         if String.eqb token EmptyString
         then throw (Error "No access token received")
         else ret token
     | None => throw (Error "No access token received")
     end)
    (fun error =>
       console_error "M-Pesa Authentication Error:" (message error) ;;
       throw (Error ("Failed to authenticate with M-Pesa: " +:+ message error))).

Definition pad2 (n : N) : string := padStart0 2 (pretty n).

Definition generateTimestamp : M string :=
  now <- new_Date ;;
  ret (pretty (getFullYear now)
       +:+ pad2 (getMonth now + 1)
       +:+ pad2 (getDate now)
       +:+ pad2 (getHours now)
       +:+ pad2 (getMinutes now)
       +:+ pad2 (getSeconds now)).

Definition base64_alphabet : string :=
  "ABCDEFGHIJKLMNOPQRSTUVWXYZabcdefghijklmnopqrstuvwxyz0123456789+/".

Definition base64_digit (n : N) : string :=
  String.substring (N.to_nat n) 1 base64_alphabet.

Fixpoint base64_bytes (l : list N) : string :=
  match l with
  | [] => EmptyString
  | [a] =>
      base64_digit (a / 4) +:+ base64_digit ((a mod 4) * 16) +:+ "=="
  | [a; b] =>
      base64_digit (a / 4) +:+ base64_digit ((a mod 4) * 16 + b / 16)
      +:+ base64_digit ((b mod 16) * 4) +:+ "="
  | a :: b :: c :: rest =>
      base64_digit (a / 4) +:+ base64_digit ((a mod 4) * 16 + b / 16)
      +:+ base64_digit ((b mod 16) * 4 + c / 64) +:+ base64_digit (c mod 64)
      +:+ base64_bytes rest
  end%N.

Fixpoint bytes_of (s : string) : list N :=
  match s with
  | EmptyString => []
  | String c rest => N_of_ascii c :: bytes_of rest
  end.

(** [Buffer.from(shortCode + passKey + timestamp).toString('base64')] *)
Definition generatePassword (config : MpesaConfig.t) (timestamp : string) : string :=
  base64_bytes
    (bytes_of (MpesaConfig.shortCode config +:+ MpesaConfig.passKey config
               +:+ timestamp)).

(** [error.response?.data?.errorMessage || error.message] *)
Definition error_text (error : exn) : string :=
  or_else (response_errorMessage error) (message error).

Definition initiateSTKPush (config : MpesaConfig.t) (request : STKPushRequest.t)
    : M STKPushResponse.t :=
  try_catch
    (phone <- lift (validateAndFormatPhone (STKPushRequest.phone request)) ;;
     amount <- lift (validateAmount config (STKPushRequest.amount request)) ;;
     accessToken <- getAccessToken config ;;
     timestamp <- generateTimestamp ;;
     let password := generatePassword config timestamp in
     let payload :=
       StkPayload.mk
         (MpesaConfig.shortCode config)
         password
         timestamp
         "CustomerPayBillOnline"
         amount
         phone
         (MpesaConfig.shortCode config)
         phone
         (MpesaConfig.callbackUrl config +:+ "/api/payments/mpesa/callback")
         (or_else (STKPushRequest.accountReference request)
            (substring_to 12 (STKPushRequest.orderId request)))
         (or_else (STKPushRequest.description request)
            ("Payment for order " +:+ STKPushRequest.orderId request)) in
     response <- axios (StkPushProcessRequest accessToken payload) ;;
     let result :=
       STKPushResponse.mk
         (ResponseData.MerchantRequestID response)
         (ResponseData.CheckoutRequestID response)
         (ResponseData.ResponseCode response)
         (ResponseData.ResponseDescription response)
         (ResponseData.CustomerMessage response) in
     TransactionRepository.createTransaction
       (NewTransaction.mk
          (STKPushRequest.orderId request)
          (STKPushResponse.merchantRequestId result)
          (STKPushResponse.checkoutRequestId result)
          (VStr phone)
          (VNum (inject_Z amount))
          initiated
          (STKPushResponse.responseCode result)
          (STKPushResponse.responseDescription result)
          None
          (MpesaConfig.environment config)) ;;
     ret result)
    (fun error =>
       console_error "STK Push Error:" (error_text error) ;;
       TransactionRepository.createTransaction
         (NewTransaction.mk
            (STKPushRequest.orderId request)
            None None
            (VStr (STKPushRequest.phone request))
            (VNum (STKPushRequest.amount request))
            failed
            None None
            (Some (error_text error))
            (MpesaConfig.environment config)) ;;
       throw (Error ("STK Push failed: " +:+ error_text error))).

End MpesaService.

(* ===================================================================== *)
(** * index.ts of the payment service: the callback route *)
(* ===================================================================== *)

Module Acknowledgement.
Record t := mk { ResultCode : Z; ResultDesc : string }.
End Acknowledgement.

Module PaymentRoutes.

Definition success : Acknowledgement.t := Acknowledgement.mk 0 "Success".

(** The body of [items.forEach]: four tests on [item.Name], each writing
    one key of [updateData]. *)
Definition collect (updateData : TransactionPatch.t) (item : CallbackItem.t)
    : TransactionPatch.t :=
  let v := CallbackItem.Value item in
  let n := CallbackItem.Name item in
  let u1 :=
    if strict_eq_str n "Amount"
    then TransactionPatch.mk
           (TransactionPatch.status updateData)
           (TransactionPatch.resultCode updateData)
           (TransactionPatch.resultDescription updateData)
           (TransactionPatch.callbackData updateData)
           (Some v)
           (TransactionPatch.mpesaReceiptNumber updateData)
           (TransactionPatch.transactionDate updateData)
           (TransactionPatch.phone updateData)
    else updateData in
  let u2 :=
    if strict_eq_str n "MpesaReceiptNumber"
    then TransactionPatch.mk
           (TransactionPatch.status u1)
           (TransactionPatch.resultCode u1)
           (TransactionPatch.resultDescription u1)
           (TransactionPatch.callbackData u1)
           (TransactionPatch.amount u1)
           (Some v)
           (TransactionPatch.transactionDate u1)
           (TransactionPatch.phone u1)
    else u1 in
  let u3 :=
    if strict_eq_str n "TransactionDate"
    then TransactionPatch.mk
           (TransactionPatch.status u2)
           (TransactionPatch.resultCode u2)
           (TransactionPatch.resultDescription u2)
           (TransactionPatch.callbackData u2)
           (TransactionPatch.amount u2)
           (TransactionPatch.mpesaReceiptNumber u2)
           (Some v)
           (TransactionPatch.phone u2)
    else u2 in
  if strict_eq_str n "PhoneNumber"
  then TransactionPatch.mk
         (TransactionPatch.status u3)
         (TransactionPatch.resultCode u3)
         (TransactionPatch.resultDescription u3)
         (TransactionPatch.callbackData u3)
         (TransactionPatch.amount u3)
         (TransactionPatch.mpesaReceiptNumber u3)
         (TransactionPatch.transactionDate u3)
         (Some v)
  else u3.

(** [stkCallback.CallbackMetadata?.Item]; an array, even an empty one, is
    truthy. *)
Definition metadata_items (stk : StkCallback.t) : option (list CallbackItem.t) :=
  match StkCallback.CallbackMetadata stk with
  | Some m => CallbackMetadata.Item m
  | None => None
  end.

(** [callback.Body?.stkCallback] *)
Definition stk_of (callback : Callback.t) : option StkCallback.t :=
  match Callback.Body callback with
  | Some b => CallbackBody.stkCallback b
  | None => None
  end.

(** The part of the handler inside [if (callback.Body?.stkCallback)]. *)
Definition process (callback : Callback.t) (stkCallback : StkCallback.t) : M unit :=
  let resultCode := StkCallback.ResultCode stkCallback in
  let checkout := StkCallback.CheckoutRequestID stkCallback in
  transaction <- TransactionRepository.findByCheckoutRequestId checkout ;;
  match transaction with
  | Some _ =>
      code <- lift (rc_toString resultCode) ;;
      TransactionRepository.updateTransaction checkout
        (TransactionPatch.mk
           (Some (if rc_is_string_0 resultCode then completed else failed))
           (Some code)
           (Some (StkCallback.ResultDesc stkCallback))
           (Some callback)
           None None None None) ;;
      match rc_is_string_0 resultCode, metadata_items stkCallback with
      | true, Some items =>
          let updateData := fold_left collect items TransactionPatch.empty in
          TransactionRepository.updateTransaction checkout updateData
      | _, _ => ret tt
      end
  | None => ret tt
  end.

(** [fastify.post('/api/payments/mpesa/callback', ...)]; [None] is a
    request without a body. *)
Definition mpesa_callback (body : option Callback.t) : M Acknowledgement.t :=
  try_catch
    (match body with
     | None =>
         throw (Error "Cannot read properties of undefined (reading 'Body')")
     | Some callback =>
         match stk_of callback with
         | Some stkCallback => process callback stkCallback
         | None => ret tt
         end ;;
         (* Always return success to M-Pesa *)
         ret success
     end)
    (fun error =>
       console_error "Callback processing error:" (message error) ;;
       (* Still return success to M-Pesa *)
       ret success).

End PaymentRoutes.

(* ===================================================================== *)
(** * What the specification says, in its own terms *)
(* ===================================================================== *)

Module Spec.

(** The transition graph of section 3, one constructor per arrow. *)
Inductive transition : OrderStatus.t -> OrderStatus.t -> Prop :=
| pending_confirmed : transition OrderStatus.PENDING OrderStatus.CONFIRMED
| pending_cancelled : transition OrderStatus.PENDING OrderStatus.CANCELLED
| pending_failed : transition OrderStatus.PENDING OrderStatus.FAILED
| confirmed_processing : transition OrderStatus.CONFIRMED OrderStatus.PROCESSING
| confirmed_cancelled : transition OrderStatus.CONFIRMED OrderStatus.CANCELLED
| confirmed_refunded : transition OrderStatus.CONFIRMED OrderStatus.REFUNDED
| processing_shipped : transition OrderStatus.PROCESSING OrderStatus.SHIPPED
| processing_cancelled : transition OrderStatus.PROCESSING OrderStatus.CANCELLED
| shipped_delivered : transition OrderStatus.SHIPPED OrderStatus.DELIVERED
| shipped_cancelled : transition OrderStatus.SHIPPED OrderStatus.CANCELLED
| delivered_refunded : transition OrderStatus.DELIVERED OrderStatus.REFUNDED
| failed_pending : transition OrderStatus.FAILED OrderStatus.PENDING
| failed_cancelled : transition OrderStatus.FAILED OrderStatus.CANCELLED.

(** The statuses from which an order may be cancelled. *)
Definition cancellable (s : OrderStatus.t) : Prop :=
  s = OrderStatus.PENDING \/ s = OrderStatus.CONFIRMED.


(** The three shapes of an accepted telephone number, on its digits. *)
Definition local_shape (digits : string) : Prop :=
  match digits with
  | String c rest => c = "0"%char /\ String.length rest = 9%nat
  | EmptyString => False
  end.

Definition bare_shape (digits : string) : Prop :=
  match digits with
  | String c rest => c = "7"%char /\ String.length rest = 8%nat
  | EmptyString => False
  end.

Definition prefixed_shape (digits : string) : Prop :=
  match digits with
  | String a (String b (String c rest)) =>
      a = "2"%char /\ b = "5"%char /\ c = "4"%char
      /\ String.length rest = 9%nat
  | _ => False
  end.

(** The value of the last callback item with a given name, if any. *)
Fixpoint named (name : string) (items : list CallbackItem.t) : option value :=
  match items with
  | [] => None
  | item :: rest =>
      match named name rest with
      | Some v => Some v
      | None =>
          if strict_eq_str (CallbackItem.Name item) name
          then Some (CallbackItem.Value item)
          else None
      end
  end.


(** A ledger row after the named items of a successful callback have
    been merged into it. *)
Definition with_receipt (items : list CallbackItem.t) (at_ : Date)
    (t : Transaction.t) : Transaction.t :=
  Transaction.mk
    (Transaction.orderId t) (Transaction.merchantRequestId t)
    (Transaction.checkoutRequestId t)
    (default (Transaction.phone t) (named "PhoneNumber" items))
    (default (Transaction.amount t) (named "Amount" items))
    (Transaction.status t)
    (Transaction.responseCode t) (Transaction.responseDescription t)
    (Transaction.resultCode t) (Transaction.resultDescription t)
    (match named "MpesaReceiptNumber" items with
     | Some v => Some v
     | None => Transaction.mpesaReceiptNumber t
     end)
    (match named "TransactionDate" items with
     | Some v => Some v
     | None => Transaction.transactionDate t
     end)
    (Transaction.errorMessage t) (Transaction.callbackData t)
    (Transaction.environment t) (Transaction.createdAt t) at_.

End Spec.

(* ===================================================================== *)
(** * Worlds used to run the operations on concrete inputs *)
(* ===================================================================== *)

Module Sample.

Definition noon : Date := mkDate 1700000000000 2023 10 14 12 0 0.

Definition inventory_ok : ResponseData.t :=
  ResponseData.mk true "ok" None None None None None None.

Definition gateway_ok : ResponseData.t :=
  ResponseData.mk true "ok" (Some "token-1")
    (Some "29115-34620561-1") (Some "ws_CO_191220191020363925")
    (Some "0") (Some "Success. Request accepted for processing")
    (Some "Success. Request accepted for processing").

(** Every remote service answers. *)
Definition all_up (req : HttpRequest) : HttpResponse :=
  match req with
  | OAuthGenerate _ _ | StkPushProcessRequest _ _ => Http2xx gateway_ok
  | _ => Http2xx inventory_ok
  end.


Definition world (remote : HttpRequest -> HttpResponse)
    (orders : gmap string Order.t) (user_orders : gmap string UserOrder.t)
    (transactions : list TxDoc.t) : World :=
  mkWorld orders user_orders transactions
    (fun _ => noon) 0 (fun n => "doc" +:+ pretty n) 0 (fun _ => 42%N) 0
    remote [] [].

Definition empty_world : World := world all_up ∅ ∅ [].

Definition address : Address.t :=
  Address.mk "1 Moi Avenue" "Nairobi" "Nairobi" "Kenya" "00100"
    "0712345678" None None.

Definition item : OrderItem.t :=
  OrderItem.mk "p1" None "sku-1" "Kettle" 2 100 0 0 200 None.

Definition request : CreateOrderRequest.t :=
  CreateOrderRequest.mk "u1" [item] address None mpesa "standard"
    50 10 5 200 245 "KES" None None None.

Definition order (status : OrderStatus.t) (payment : PaymentStatus.t) : Order.t :=
  Order.mk "o1" "ORD-0000000042" "u1" [item] address address
    status payment ShippingStatus.PENDING mpesa "standard"
    200 50 10 5 245 "KES" None None None None None (Some "tx1") ∅ ∅
    noon noon.

Definition index_entry (status : OrderStatus.t) : UserOrder.t :=
  UserOrder.mk "u1" "o1" "ORD-0000000042" status 245 noon None.

Definition order_world (status : OrderStatus.t) (payment : PaymentStatus.t) : World :=
  world all_up {["o1" := order status payment]}
    {["u1_o1" := index_entry status]} [].

Definition config (environment : Environment) : MpesaConfig.t :=
  MpesaConfig.mk environment "key" "secret" "174379" "passkey"
    "api" "secret" "https://shop.example".

Definition push_request (phone : string) (amount : Q) : STKPushRequest.t :=
  STKPushRequest.mk phone amount "o1" None None.

Definition transaction : Transaction.t :=
  Transaction.mk "o1" (Some "29115-34620561-1") (Some "ws_CO_1")
    (VStr "254712345678") (VNum 100) initiated (Some "0") (Some "accepted")
    None None None None None None sandbox noon noon.


Definition stk (checkout : string) (code : ResultCodeValue)
    (items : option (list CallbackItem.t)) : StkCallback.t :=
  StkCallback.mk (VStr "29115-34620561-1") checkout code
    (VStr "The service request is processed successfully.")
    (option_map (fun l => CallbackMetadata.mk (Some l)) items).

Definition callback_for (checkout : string) (code : ResultCodeValue)
    (items : option (list CallbackItem.t)) : Callback.t :=
  Callback.mk (Some (CallbackBody.mk (Some (stk checkout code items)))).

Definition callback : ResultCodeValue -> option (list CallbackItem.t) -> Callback.t :=
  callback_for "ws_CO_1".


End Sample.

(* ===================================================================== *)
(** * transaction.repository.ts: the transactions of an order *)
(* ===================================================================== *)

Module TransactionQueries.

(** [orderBy('createdAt', 'desc')]: later first; documents created at the
    same instant are listed by identifier, in the same direction. *)
Definition newer_first (a b : TxDoc.t) : bool :=
  let ta := getTime (Transaction.createdAt (TxDoc.data a)) in
  let tb := getTime (Transaction.createdAt (TxDoc.data b)) in
  (tb <? ta) || ((ta =? tb) && String.leb (TxDoc.id b) (TxDoc.id a)).

Fixpoint insert_newer (d : TxDoc.t) (l : list TxDoc.t) : list TxDoc.t :=
  match l with
  | [] => [d]
  | x :: rest =>
      if newer_first d x then d :: l else x :: insert_newer d rest
  end.

Definition orderBy_createdAt_desc (l : list TxDoc.t) : list TxDoc.t :=
  fold_right insert_newer [] l.

(** [where('orderId', '==', orderId)] *)
Definition of_order (orderId : string) (d : TxDoc.t) : bool :=
  String.eqb (Transaction.orderId (TxDoc.data d)) orderId.

Definition findByOrderId (orderId : string) : M (list TxDoc.t) :=
  fun w =>
    (Ok (orderBy_createdAt_desc
           (List.filter (of_order orderId) (mpesa_transactions w))), w).

End TransactionQueries.

(* ===================================================================== *)
(** * mpesa.service.ts: the health check *)
(* ===================================================================== *)

Module MpesaHealth.

Definition healthCheck (config : MpesaConfig.t) : M bool :=
  try_catch
    (token <- MpesaService.getAccessToken config ;;
     ret (negb (String.eqb token EmptyString)))
    (fun error =>
       console_error "M-Pesa Health Check Failed:" (message error) ;;
       ret false).

End MpesaHealth.

(* ===================================================================== *)
(** * index.ts of the payment service: the other routes *)
(* ===================================================================== *)

(** What a handler sends back: the status code (200 unless [reply.code] was
    called) and the keys of the object it returns. *)
Module Reply.
Record t (A : Type) := mk {
  statusCode : Z;
  success : bool;
  data : option A;
  error : option string;
  code : option string;
  message : option string
}.
Arguments mk {A} _ _ _ _ _ _.
Arguments statusCode {A} _.
Arguments success {A} _.
Arguments data {A} _.
Arguments error {A} _.
Arguments code {A} _.
Arguments message {A} _.
End Reply.

Module StkPushBody.
Record t := mk {
  phone : option string;
  amount : option Q;
  orderId : option string;
  description : option string;
  accountReference : option string
}.
End StkPushBody.

Module HealthReport.
Record t := mk { status : string; service : string; timestamp : Date; mpesa : string }.
End HealthReport.

Module PaymentApi.

(** [hay.includes(needle)] *)
Fixpoint includes (needle hay : string) : bool :=
  String.prefix needle hay
  || match hay with
     | EmptyString => false
     | String _ rest => includes needle rest
     end.

(** [!s] on an optional string and [!n] on an optional number *)
Definition falsy_string (s : option string) : bool :=
  match s with
  | Some t => String.eqb t EmptyString
  | None => true
  end.

Definition falsy_number (n : option Q) : bool :=
  match n with
  | Some q => Qeq_bool q 0
  | None => true
  end.

(** [fastify.get('/health', ...)] *)
Definition health (config : MpesaConfig.t) : M HealthReport.t :=
  mpesaHealthy <- MpesaHealth.healthCheck config ;;
  now <- new_Date ;;
  ret (HealthReport.mk
         (if mpesaHealthy then "healthy" else "degraded")
         "payment" now
         (if mpesaHealthy then "connected" else "disconnected")).

(** [fastify.post('/api/payments/mpesa/stkpush', ...)], after [verifyToken]
    has set [request.user]; [None] is a request without a body. *)
Definition stkpush (config : MpesaConfig.t) (body : option StkPushBody.t)
    : M (Reply.t STKPushResponse.t) :=
  match body with
  | None =>
      (* body.phone throws in the try block, body.orderId throws again
         while the catch block builds its log line *)
      throw (Error "Cannot read properties of undefined (reading 'orderId')")
  | Some body =>
      try_catch
        (if falsy_string (StkPushBody.phone body)
            || falsy_number (StkPushBody.amount body)
            || falsy_string (StkPushBody.orderId body)
         then
           ret (Reply.mk 400 false None
                  (Some "Missing required fields: phone, amount, orderId")
                  None None)
         else
           result <-
             MpesaService.initiateSTKPush config
               (STKPushRequest.mk
                  (default EmptyString (StkPushBody.phone body))
                  (default 0%Q (StkPushBody.amount body))
                  (default EmptyString (StkPushBody.orderId body))
                  (StkPushBody.description body)
                  (StkPushBody.accountReference body)) ;;
           ret (Reply.mk 200 true (Some result) None None
                  (Some "Payment initiated successfully. Check your phone for M-Pesa prompt.")))
        (fun error =>
           console_error "Payment initiation failed:" (message error) ;;
           ret (Reply.mk
                  (if includes "Invalid" (message error) then 400 else 500)
                  false None (Some (message error))
                  (Some "PAYMENT_INITIATION_FAILED") None))
  end.

(** [fastify.get('/api/payments/transactions/:orderId', ...)] *)
Definition transactions (orderId : string) : M (Reply.t (list TxDoc.t)) :=
  try_catch
    (found <- TransactionQueries.findByOrderId orderId ;;
     ret (Reply.mk 200 true (Some found) None None None))
    (fun error =>
       console_error "Get transactions error:" (message error) ;;
       ret (Reply.mk 500 false None (Some "Failed to fetch transactions")
              None None)).

End PaymentApi.

(* ===================================================================== *)
(** * order.controller.ts *)
(* ===================================================================== *)

(** [request.user], as the handlers read it. *)
Module User.
Record t := mk { uid : string; isAdmin : bool }.
End User.

(** The body of a status update before validation. *)
Module UpdateStatusBody.
Record t := mk { status : value; reason : value }.
End UpdateStatusBody.

Module CancelBody.
Record t := mk { reason : string }.
End CancelBody.

Module OrderController.

(** [UpdateOrderStatusSchema]: one of six status names, and a reason that
    is a string when it is there. *)
Definition parse_status (v : value) : option OrderStatus.t :=
  match v with
  | VStr s =>
      if String.eqb s "pending" then Some OrderStatus.PENDING
      else if String.eqb s "confirmed" then Some OrderStatus.CONFIRMED
      else if String.eqb s "processing" then Some OrderStatus.PROCESSING
      else if String.eqb s "shipped" then Some OrderStatus.SHIPPED
      else if String.eqb s "delivered" then Some OrderStatus.DELIVERED
      else if String.eqb s "cancelled" then Some OrderStatus.CANCELLED
      else None
  | _ => None
  end.

Definition parse_reason (v : value) : option (option string) :=
  match v with
  | VUndefined => Some None
  | VStr r => Some (Some r)
  | _ => None
  end.

Definition safeParse (body : option UpdateStatusBody.t)
    : option (OrderStatus.t * option string) :=
  match body with
  | Some b =>
      match parse_status (UpdateStatusBody.status b),
            parse_reason (UpdateStatusBody.reason b) with
      | Some s, Some r => Some (s, r)
      | _, _ => None
      end
  | None => None
  end.

Definition getOrder (id : string) (user : User.t) : M (Reply.t Order.t) :=
  try_catch
    (order <- OrderService.getOrder id ;;
     match order with
     | None =>
         ret (Reply.mk 404 false None (Some "Order not found") None None)
     | Some o =>
         if negb (String.eqb (Order.userId o) (User.uid user))
            && negb (User.isAdmin user)
         then ret (Reply.mk 403 false None (Some "Access denied") None None)
         else ret (Reply.mk 200 true (Some o) None None None)
     end)
    (fun error =>
       console_error "Get order error:" (Js.message error) ;;
       ret (Reply.mk 500 false None (Some "Failed to fetch order") None None)).

Definition updateOrderStatus (id : string) (user : User.t)
    (body : option UpdateStatusBody.t) : M (Reply.t (option Order.t)) :=
  try_catch
    (if negb (User.isAdmin user)
     then ret (Reply.mk 403 false None (Some "Admin access required") None None)
     else
       match safeParse body with
       | None =>
           ret (Reply.mk 400 false None (Some "Validation failed") None None)
       | Some (status, reason) =>
           order <- OrderService.updateOrderStatus id status reason ;;
           ret (Reply.mk 200 true (Some order) None None
                  (Some ("Order status updated to "
                         +:+ OrderStatus.to_string status)))
       end)
    (fun error =>
       console_error "Update order status error:" (Js.message error) ;;
       ret (Reply.mk 400 false None
              (Some (or_else (Some (Js.message error))
                       "Failed to update order status"))
              None None)).

Definition cancelOrder (id : string) (user : User.t)
    (body : option CancelBody.t) : M (Reply.t (option Order.t)) :=
  try_catch
    (match body with
     | None =>
         throw (Error "Cannot destructure property 'reason' of 'request.body' as it is undefined.")
     | Some b =>
         order <-
           OrderService.cancelOrder id (CancelBody.reason b) (User.uid user) ;;
         ret (Reply.mk 200 true (Some order) None None
                (Some "Order cancelled successfully"))
     end)
    (fun error =>
       console_error "Cancel order error:" (Js.message error) ;;
       ret (Reply.mk 400 false None
              (Some (or_else (Some (Js.message error)) "Failed to cancel order"))
              None None)).

End OrderController.

(* ===================================================================== *)
(** * Notions used to state what the operations keep *)
(* ===================================================================== *)

Module Base64.

(** The position of a character in a string. *)
Fixpoint index_in (c : ascii) (s : string) : N :=
  match s with
  | EmptyString => 0
  | String x rest => if Ascii.eqb c x then 0 else 1 + index_in c rest
  end%N.

Definition value_of (c : ascii) : N :=
  index_in c MpesaService.base64_alphabet.

(** Reading a padded base64 text back into bytes. *)
Fixpoint decode (s : string) : list N :=
  match s with
  | String c1 (String c2 (String c3 (String c4 rest))) =>
      let v1 := value_of c1 in
      let v2 := value_of c2 in
      let v3 := value_of c3 in
      let v4 := value_of c4 in
      if Ascii.eqb c3 "=" then [v1 * 4 + v2 / 16]
      else if Ascii.eqb c4 "="
      then [v1 * 4 + v2 / 16; (v2 mod 16) * 16 + v3 / 4]
      else (v1 * 4 + v2 / 16) :: ((v2 mod 16) * 16 + v3 / 4)
           :: ((v3 mod 4) * 64 + v4) :: decode rest
  | _ => []
  end%N.

End Base64.

Module Laws.

(** A height on the statuses: every arrow of the transition table climbs,
    except the two between pending and failed. *)
Definition rank (s : OrderStatus.t) : nat :=
  match s with
  | OrderStatus.PENDING | OrderStatus.FAILED => 0
  | OrderStatus.CONFIRMED => 1
  | OrderStatus.PROCESSING => 2
  | OrderStatus.SHIPPED => 3
  | OrderStatus.DELIVERED => 4
  | OrderStatus.CANCELLED | OrderStatus.REFUNDED => 5
  end.

(** One accepted step of the code's table, and chains of them. *)
Definition step (a b : OrderStatus.t) : Prop :=
  OrderService.validateStatusTransition a b = Ok tt.

(** Two ledger documents are the same attempt: same identifier, order,
    gateway identifiers, first answer, error, environment and creation. *)
Definition same_attempt (a b : TxDoc.t) : Prop :=
  TxDoc.id a = TxDoc.id b
  /\ Transaction.orderId (TxDoc.data a) = Transaction.orderId (TxDoc.data b)
  /\ Transaction.merchantRequestId (TxDoc.data a)
     = Transaction.merchantRequestId (TxDoc.data b)
  /\ Transaction.checkoutRequestId (TxDoc.data a)
     = Transaction.checkoutRequestId (TxDoc.data b)
  /\ Transaction.responseCode (TxDoc.data a)
     = Transaction.responseCode (TxDoc.data b)
  /\ Transaction.responseDescription (TxDoc.data a)
     = Transaction.responseDescription (TxDoc.data b)
  /\ Transaction.errorMessage (TxDoc.data a)
     = Transaction.errorMessage (TxDoc.data b)
  /\ Transaction.environment (TxDoc.data a)
     = Transaction.environment (TxDoc.data b)
  /\ Transaction.createdAt (TxDoc.data a)
     = Transaction.createdAt (TxDoc.data b).

(** A transaction with its [updatedAt] replaced. *)
Definition touch (at_ : Date) (t : Transaction.t) : Transaction.t :=
  Transaction.mk
    (Transaction.orderId t) (Transaction.merchantRequestId t)
    (Transaction.checkoutRequestId t) (Transaction.phone t)
    (Transaction.amount t) (Transaction.status t)
    (Transaction.responseCode t) (Transaction.responseDescription t)
    (Transaction.resultCode t) (Transaction.resultDescription t)
    (Transaction.mpesaReceiptNumber t) (Transaction.transactionDate t)
    (Transaction.errorMessage t) (Transaction.callbackData t)
    (Transaction.environment t) (Transaction.createdAt t) at_.

(** Two ledgers that differ at most in the [updatedAt] of their rows. *)
Definition same_but_updatedAt (l l' : list TxDoc.t) : Prop :=
  Forall2
    (fun d d' =>
       TxDoc.id d' = TxDoc.id d
       /\ TxDoc.data d'
          = touch (Transaction.updatedAt (TxDoc.data d')) (TxDoc.data d))
    l l'.


(** The characters of a string are all decimal digits. *)
Fixpoint all_digits (s : string) : bool :=
  match s with
  | EmptyString => true
  | String c rest => MpesaService.is_digit c && all_digits rest
  end.

(** A date whose calendar fields are in their ranges, the year with four
    digits. *)
Definition calendar (d : Date) : Prop :=
  (1000 <= getFullYear d < 10000)%N
  /\ (getMonth d < 12)%N
  /\ (getDate d < 32)%N
  /\ (getHours d < 24)%N
  /\ (getMinutes d < 60)%N
  /\ (getSeconds d < 60)%N.


(** The two writes of the callback route on the data of one document: the
    outcome at [first_at], then, for a successful payment with items, the
    named items at [second_at]. *)
Definition row_after (callback : Callback.t) (stk : StkCallback.t)
    (code : string) (first_at second_at : Date) (t : Transaction.t)
    : Transaction.t :=
  let outcome :=
    TransactionRepository.merge
      (TransactionPatch.mk
         (Some (if rc_is_string_0 (StkCallback.ResultCode stk)
                then completed else failed))
         (Some code)
         (Some (StkCallback.ResultDesc stk))
         (Some callback)
         None None None None)
      first_at t in
  match rc_is_string_0 (StkCallback.ResultCode stk),
        PaymentRoutes.metadata_items stk with
  | true, Some items =>
      TransactionRepository.merge
        (fold_left PaymentRoutes.collect items TransactionPatch.empty)
        second_at outcome
  | _, _ => outcome
  end.

(** The ledger after the callback route has run on it, given the two
    instants it reads from the clock. *)
Definition ledger_after (body : option Callback.t) (first_at second_at : Date)
    (l : list TxDoc.t) : list TxDoc.t :=
  match body with
  | Some callback =>
      match PaymentRoutes.stk_of callback with
      | Some stk =>
          match rc_toString (StkCallback.ResultCode stk) with
          | Ok code =>
              TransactionRepository.update_first
                (TransactionRepository.has_checkout
                   (StkCallback.CheckoutRequestID stk))
                (row_after callback stk code first_at second_at) l
          | Throw _ => l
          end
      | None => l
      end
  | None => l
  end.

End Laws.

(* ===================================================================== *)
(** * More worlds and requests to run the operations on *)
(* ===================================================================== *)

Module Cases.

(** No remote service can be reached. *)
Definition nothing_up (req : HttpRequest) : HttpResponse :=
  HttpFailure "connect ECONNREFUSED" None.

Definition offline_world : World := Sample.world nothing_up ∅ ∅ [].

Definition stranger : User.t := User.mk "u2" false.
Definition owner : User.t := User.mk "u1" false.
Definition admin : User.t := User.mk "a1" true.

Definition push_body (phone : string) (amount : Q) : StkPushBody.t :=
  StkPushBody.mk (Some phone) (Some amount) (Some "o1") None None.

Definition at_time (ms : Z) : Date := mkDate ms 2023 10 14 12 0 0.

Definition transaction_of (orderId checkout : string) (created : Z) : Transaction.t :=
  Transaction.mk orderId (Some "m1") (Some checkout)
    (VStr "254712345678") (VNum 100) initiated (Some "0") (Some "accepted")
    None None None None None None sandbox (at_time created) (at_time created).

Definition three_attempts : World :=
  Sample.world Sample.all_up ∅ ∅
    [TxDoc.mk "a" (transaction_of "o1" "c1" 10);
     TxDoc.mk "b" (transaction_of "o2" "c2" 20);
     TxDoc.mk "c" (transaction_of "o1" "c3" 30)].

End Cases.

(* ===================================================================== *)
(** * Running the operations symbolically *)
(* ===================================================================== *)

(** Unfolds the operations and the effect primitives; what is left is a
    case analysis on the stored documents and on the remote answers. *)
Ltac run :=
  cbv [OrderService.createOrder OrderService.validateInventory
       OrderService.reserveInventory OrderService.releaseInventory
       OrderService.initiateRefund OrderService.sendOrderConfirmation
       OrderService.publishOrderCreated OrderService.publishOrderStatusChanged
       OrderService.updateOrderStatus OrderService.cancelOrder
       OrderService.getOrder
       OrderRepository.create OrderRepository.generateOrderNumber
       OrderRepository.findById OrderRepository.update
       OrderRepository.updateStatus OrderRepository.orders_update
       OrderRepository.user_orders_update
       MpesaService.initiateSTKPush MpesaService.getAccessToken
       MpesaService.generateTimestamp
       TransactionRepository.createTransaction
       TransactionRepository.updateTransaction
       TransactionRepository.findByCheckoutRequestId
       PaymentRoutes.mpesa_callback PaymentRoutes.process
       try_catch bind ret throw lift axios axios_detached console_error
       new_Date auto_id random_10000 send set_orders set_user_orders
       set_mpesa_transactions
       orders user_orders mpesa_transactions clock ticks auto_ids minted
       randoms drawn remote calls console].

(* ===================================================================== *)
(** * Order creation *)
(* ===================================================================== *)







(* ===================================================================== *)
(** * Order status transitions *)
(* ===================================================================== *)

Lemma includes_validTransitions (current next : OrderStatus.t) :
  OrderStatus.includes (OrderService.validTransitions current) next = true
  <-> Spec.transition current next.
Proof.
  split.
  - destruct current, next; cbn; intros H; try discriminate H; constructor.
  - intros H; destruct H; reflexivity.
Qed.

Lemma validateStatusTransition_accepts (current next : OrderStatus.t) :
  Spec.transition current next ->
  OrderService.validateStatusTransition current next = Ok tt.
Proof.
  intros H. apply includes_validTransitions in H.
  unfold OrderService.validateStatusTransition. rewrite H. reflexivity.
Qed.

Lemma validateStatusTransition_rejects (current next : OrderStatus.t) :
  ~ Spec.transition current next ->
  OrderService.validateStatusTransition current next
  = Throw (OrderService.invalid_transition current next).
Proof.
  intros H. unfold OrderService.validateStatusTransition.
  destruct (OrderStatus.includes (OrderService.validTransitions current) next)
    eqn:E; [|reflexivity].
  apply includes_validTransitions in E. contradiction.
Qed.

Lemma invalid_transition_not_not_found (current next : OrderStatus.t) :
  OrderService.invalid_transition current next <> OrderRepository.not_found.
Proof. destruct current, next; discriminate. Qed.

(** C1.  For a stored order and a target status: if the pair (current,
    target) is not an arrow of the transition graph, [updateOrderStatus]
    throws the invalid-transition error and leaves the world, hence the
    stored order, as it was; if it is an arrow, the transition is not
    rejected, the stored order gets the target status, and, the per-user
    index entry of the order being there, the refreshed order is returned. *)
Theorem updateOrderStatus_follows_transition_table
    (w : World) (orderId : string) (order : Order.t)
    (next : OrderStatus.t) (reason : option string) :
  orders w !! orderId = Some order ->
  (~ Spec.transition (Order.status order) next ->
   OrderService.updateOrderStatus orderId next reason w
   = (Throw (OrderService.invalid_transition (Order.status order) next), w))
  /\ (Spec.transition (Order.status order) next ->
      exists r w' order',
        OrderService.updateOrderStatus orderId next reason w = (r, w')
        /\ orders w' !! orderId = Some order'
        /\ Order.status order' = next
        /\ r <> Throw (OrderService.invalid_transition (Order.status order) next)
        /\ (is_Some (user_orders w
                       !! OrderRepository.index_key (Order.userId order) orderId) ->
            r = Ok (Some order'))).
Proof.
  intros Hstored.
  destruct w as [os uos txs clk tk ids mt rnd dr rem cs con].
  cbv [orders] in Hstored. cbv [user_orders].
  split; intros Htransition.
  - run. rewrite Hstored.
    rewrite (validateStatusTransition_rejects _ _ Htransition). reflexivity.
  - run. rewrite Hstored.
    rewrite (validateStatusTransition_accepts _ _ Htransition).
    assert (Hne : forall e : exn,
               e = OrderRepository.not_found ->
               @Throw (option Order.t) e
               <> Throw (OrderService.invalid_transition (Order.status order) next)).
    { intros e -> Heq.
      apply (invalid_transition_not_not_found (Order.status order) next).
      exact (f_equal
               (fun r : result (option Order.t) =>
                  match r with
                  | Throw x => x
                  | Ok _ => OrderRepository.not_found
                  end) (eq_sym Heq)). }
    destruct reason as [r|]; [destruct (String.eqb r EmptyString)|];
      cbn; rewrite ?Hstored; cbn;
      (destruct (uos !! OrderRepository.index_key (Order.userId order) orderId)
         as [entry|] eqn:Hentry;
       rewrite ?Hentry; cbn;
       [ eexists; eexists; eexists; split; [reflexivity|]; cbn;
         rewrite !lookup_insert_eq;
         split; [reflexivity|]; split; [reflexivity|];
         split; [discriminate|]; intros _; reflexivity
       | eexists; eexists; eexists; split; [reflexivity|]; cbn;
         rewrite !lookup_insert_eq;
         split; [reflexivity|]; split; [reflexivity|];
         split; [apply Hne; reflexivity|];
         intros [? Hsome]; discriminate Hsome ]).
Qed.

Lemma updateOrderStatus_follows_transition_table_witness :
  OrderService.updateOrderStatus "o1" OrderStatus.SHIPPED None
    (Sample.order_world OrderStatus.PENDING PaymentStatus.PAID)
  = (Throw (Error "Cannot transition from pending to shipped"),
     Sample.order_world OrderStatus.PENDING PaymentStatus.PAID)
  /\ exists order' w',
       OrderService.updateOrderStatus "o1" OrderStatus.CONFIRMED (Some "paid")
         (Sample.order_world OrderStatus.PENDING PaymentStatus.PAID)
       = (Ok (Some order'), w')
       /\ orders w' !! "o1" = Some order'
       /\ Order.status order' = OrderStatus.CONFIRMED.
Proof.
  split.
  - apply (updateOrderStatus_follows_transition_table
             (Sample.order_world OrderStatus.PENDING PaymentStatus.PAID) "o1"
             (Sample.order OrderStatus.PENDING PaymentStatus.PAID)
             OrderStatus.SHIPPED None eq_refl).
    intros H. inversion H.
  - destruct (updateOrderStatus_follows_transition_table
                (Sample.order_world OrderStatus.PENDING PaymentStatus.PAID) "o1"
                (Sample.order OrderStatus.PENDING PaymentStatus.PAID)
                OrderStatus.CONFIRMED (Some "paid") eq_refl)
      as [_ Haccept].
    destruct (Haccept Spec.pending_confirmed)
      as (r & w' & order' & Hrun & Hstored & Hstatus & _ & Hreturned).
    exists order', w'.
    rewrite Hrun, (Hreturned (ex_intro _ _ eq_refl)).
    split; [reflexivity|]. split; assumption.
Defined.

(* ===================================================================== *)
(** * Cancellation *)
(* ===================================================================== *)

Lemma includes_cancellable (s : OrderStatus.t) :
  OrderStatus.includes [OrderStatus.PENDING; OrderStatus.CONFIRMED] s = true
  <-> Spec.cancellable s.
Proof.
  unfold Spec.cancellable. split.
  - destruct s; cbn; intros H; try discriminate H; auto.
  - intros [-> | ->]; reflexivity.
Qed.

Lemma PaymentStatus_eqb_eq (a b : PaymentStatus.t) :
  PaymentStatus.eqb a b = true <-> a = b.
Proof.
  split.
  - destruct a, b; cbn; intros H; try discriminate H; reflexivity.
  - intros ->. destruct b; reflexivity.
Qed.

(** C8.  For a stored order: if its status is neither pending nor
    confirmed, [cancelOrder] throws and leaves the world as it was;
    otherwise it returns the stored order, now cancelled, with the time of
    the call as [cancelledAt], the actor as [cancelledBy] and the reason as
    [cancellationReason]; the requests it sends are the inventory release
    and, exactly when the order read at the start of the call had payment
    status paid, the refund request. *)
Theorem cancelOrder_only_pending_or_confirmed
    (w : World) (orderId reason cancelledBy : string) (order : Order.t) :
  orders w !! orderId = Some order ->
  (~ Spec.cancellable (Order.status order) ->
   OrderService.cancelOrder orderId reason cancelledBy w
   = (Throw (Error "Order cannot be cancelled at this stage"), w))
  /\ (Spec.cancellable (Order.status order) ->
      exists order' w' sent,
        OrderService.cancelOrder orderId reason cancelledBy w
        = (Ok (Some order'), w')
        /\ orders w' !! orderId = Some order'
        /\ Order.status order' = OrderStatus.CANCELLED
        /\ Order.cancelledAt order' = Some (clock w (ticks w))
        /\ Order.cancelledBy order' = Some cancelledBy
        /\ Order.cancellationReason order' = Some reason
        /\ calls w' = (calls w ++ sent)%list
        /\ (In (OrderService.refund_request order) sent
            <-> Order.paymentStatus order = PaymentStatus.PAID)
        /\ (forall req, In req sent ->
              req = InventoryRelease orderId (Order.items order)
              \/ req = OrderService.refund_request order)).
Proof.
  intros Hstored.
  destruct w as [os uos txs clk tk ids mt rnd dr rem cs con].
  cbv [orders] in Hstored. cbv [calls clock ticks].
  split; intros Hstatus.
  - run. rewrite Hstored.
    destruct (OrderStatus.includes [OrderStatus.PENDING; OrderStatus.CONFIRMED]
                (Order.status order)) eqn:E.
    + apply includes_cancellable in E. contradiction.
    + reflexivity.
  - apply includes_cancellable in Hstatus.
    run. rewrite Hstored, Hstatus. cbn. rewrite Hstored. cbn.
    destruct (PaymentStatus.eqb (Order.paymentStatus order) PaymentStatus.PAID)
      eqn:Hpaid.
    + pose proof (proj1 (PaymentStatus_eqb_eq _ _) Hpaid) as Hpaid'.
      destruct (rem (InventoryRelease orderId (Order.items order)));
        destruct (rem (OrderService.refund_request order));
        (exists (OrderPatch.apply
                   (OrderPatch.mk (Some OrderStatus.CANCELLED) (Some (clk tk))
                      (Some cancelledBy) (Some reason) None (Some (clk (S tk))))
                   order);
         eexists;
         exists [InventoryRelease orderId (Order.items order);
                 OrderService.refund_request order];
         cbn; rewrite !lookup_insert_eq; rewrite <- !app_assoc;
         split; [reflexivity|]; cbn; rewrite ?lookup_insert_eq;
         repeat (split; [reflexivity|]);
         split; [split; [intros _; exact Hpaid'|intros _; right; left; reflexivity]|];
         intros req [<-|[<-|[]]]; auto).
    + assert (Hunpaid : Order.paymentStatus order <> PaymentStatus.PAID).
      { intros H. apply PaymentStatus_eqb_eq in H. congruence. }
      destruct (rem (InventoryRelease orderId (Order.items order)));
        (exists (OrderPatch.apply
                   (OrderPatch.mk (Some OrderStatus.CANCELLED) (Some (clk tk))
                      (Some cancelledBy) (Some reason) None (Some (clk (S tk))))
                   order);
         eexists;
         exists [InventoryRelease orderId (Order.items order)];
         cbn; rewrite !lookup_insert_eq;
         split; [reflexivity|]; cbn; rewrite ?lookup_insert_eq;
         repeat (split; [reflexivity|]);
         split; [split; [intros [H|[]]; discriminate H|intros H; contradiction]|];
         intros req [<-|[]]; auto).
Qed.

Lemma cancelOrder_only_pending_or_confirmed_witness :
  OrderService.cancelOrder "o1" "changed my mind" "u1"
    (Sample.order_world OrderStatus.SHIPPED PaymentStatus.PAID)
  = (Throw (Error "Order cannot be cancelled at this stage"),
     Sample.order_world OrderStatus.SHIPPED PaymentStatus.PAID)
  /\ exists order' w',
       OrderService.cancelOrder "o1" "changed my mind" "u1"
         (Sample.order_world OrderStatus.CONFIRMED PaymentStatus.PAID)
       = (Ok (Some order'), w')
       /\ Order.status order' = OrderStatus.CANCELLED
       /\ In (OrderService.refund_request
                (Sample.order OrderStatus.CONFIRMED PaymentStatus.PAID))
            (calls w').
Proof.
  split.
  - apply (cancelOrder_only_pending_or_confirmed
             (Sample.order_world OrderStatus.SHIPPED PaymentStatus.PAID)
             "o1" "changed my mind" "u1"
             (Sample.order OrderStatus.SHIPPED PaymentStatus.PAID) eq_refl).
    intros [H|H]; discriminate H.
  - destruct (cancelOrder_only_pending_or_confirmed
                (Sample.order_world OrderStatus.CONFIRMED PaymentStatus.PAID)
                "o1" "changed my mind" "u1"
                (Sample.order OrderStatus.CONFIRMED PaymentStatus.PAID) eq_refl)
      as [_ Hcancel].
    destruct (Hcancel (or_intror eq_refl))
      as (order' & w' & sent & Hrun & _ & Hstatus & _ & _ & _ & Hcalls
          & Hrefund & _).
    exists order', w'. split; [exact Hrun|]. split; [exact Hstatus|].
    rewrite Hcalls. apply in_or_app. right. apply Hrefund. reflexivity.
Defined.

(* ===================================================================== *)
(** * Telephone numbers *)
(* ===================================================================== *)

Lemma prefix_empty (s : string) : String.prefix EmptyString s = true.
Proof. destruct s; reflexivity. Qed.

Lemma substring_all (s : string) : String.substring 0 (String.length s) s = s.
Proof. induction s as [|c s IH]; cbn; [reflexivity|]. rewrite IH. reflexivity. Qed.

Lemma local_shape_test (d : string) :
  String.prefix "0" d && (String.length d =? 10)%nat = true <-> Spec.local_shape d.
Proof.
  destruct d as [|c rest]; cbn -[ascii_dec].
  - split; [intros H; discriminate H|tauto].
  - destruct (ascii_dec "0" c) as [<-|Hne]; cbn.
    + rewrite prefix_empty. cbn. rewrite Nat.eqb_eq. tauto.
    + split; [intros H; discriminate H|]. intros [Hc _]. congruence.
Qed.

Lemma bare_shape_test (d : string) :
  String.prefix "7" d && (String.length d =? 9)%nat = true <-> Spec.bare_shape d.
Proof.
  destruct d as [|c rest]; cbn -[ascii_dec].
  - split; [intros H; discriminate H|tauto].
  - destruct (ascii_dec "7" c) as [<-|Hne]; cbn.
    + rewrite prefix_empty. cbn. rewrite Nat.eqb_eq. tauto.
    + split; [intros H; discriminate H|]. intros [Hc _]. congruence.
Qed.

Lemma prefixed_shape_test (d : string) :
  String.prefix "254" d && (String.length d =? 12)%nat = true
  <-> Spec.prefixed_shape d.
Proof.
  destruct d as [|a [|b [|c rest]]]; cbn -[ascii_dec].
  - split; [intros H; discriminate H|tauto].
  - rewrite andb_false_r. split; [intros H; discriminate H|tauto].
  - rewrite andb_false_r. split; [intros H; discriminate H|tauto].
  - destruct (ascii_dec "2" a) as [<-|Ha]; cbn -[ascii_dec].
    + destruct (ascii_dec "5" b) as [<-|Hb]; cbn -[ascii_dec].
      * destruct (ascii_dec "4" c) as [<-|Hc]; cbn -[ascii_dec].
        -- rewrite prefix_empty. cbn. rewrite Nat.eqb_eq. tauto.
        -- split; [intros H; discriminate H|]. intros (_ & _ & H & _). congruence.
      * split; [intros H; discriminate H|]. intros (_ & H & _). congruence.
    + split; [intros H; discriminate H|]. intros (H & _). congruence.
Qed.

(** C6.  [validateAndFormatPhone] maps 0712345678 and 712345678 to
    254712345678 and leaves 254712345678 as it is; it throws on 12345, and
    on every input whose digits have none of the three shapes: a 0 and nine
    more digits, a 7 and eight more digits, 254 and nine more digits.
    On the three shapes it answers with the number in its 254 form. *)
Theorem validateAndFormatPhone_three_shapes :
  MpesaService.validateAndFormatPhone "0712345678" = Ok "254712345678"
  /\ MpesaService.validateAndFormatPhone "712345678" = Ok "254712345678"
  /\ MpesaService.validateAndFormatPhone "254712345678" = Ok "254712345678"
  /\ MpesaService.validateAndFormatPhone "12345" = Throw MpesaService.invalid_phone
  /\ (forall phone,
        ~ Spec.local_shape (MpesaService.remove_non_digits phone) ->
        ~ Spec.bare_shape (MpesaService.remove_non_digits phone) ->
        ~ Spec.prefixed_shape (MpesaService.remove_non_digits phone) ->
        MpesaService.validateAndFormatPhone phone
        = Throw MpesaService.invalid_phone)
  /\ (forall phone rest,
        MpesaService.remove_non_digits phone = String "0" rest ->
        String.length rest = 9%nat ->
        MpesaService.validateAndFormatPhone phone = Ok ("254" +:+ rest))
  /\ (forall phone,
        Spec.bare_shape (MpesaService.remove_non_digits phone) ->
        MpesaService.validateAndFormatPhone phone
        = Ok ("254" +:+ MpesaService.remove_non_digits phone))
  /\ (forall phone,
        Spec.prefixed_shape (MpesaService.remove_non_digits phone) ->
        MpesaService.validateAndFormatPhone phone
        = Ok (MpesaService.remove_non_digits phone)).
Proof.
  repeat (split; [reflexivity|]).
  split; [|split; [|split]].
  - intros phone Hlocal Hbare Hprefixed.
    unfold MpesaService.validateAndFormatPhone.
    destruct (String.prefix "0" _ && _) eqn:E0;
      [apply local_shape_test in E0; contradiction|].
    destruct (String.prefix "7" _ && _) eqn:E7;
      [apply bare_shape_test in E7; contradiction|].
    destruct (String.prefix "254" (MpesaService.remove_non_digits phone)) eqn:Ep;
      [|reflexivity].
    destruct (String.length (MpesaService.remove_non_digits phone) =? 12)%nat eqn:El;
      [|reflexivity].
    exfalso. apply Hprefixed, prefixed_shape_test. rewrite Ep, El. reflexivity.
  - intros phone rest Hdigits Hlength.
    unfold MpesaService.validateAndFormatPhone.
    rewrite (proj2 (local_shape_test (MpesaService.remove_non_digits phone)))
      by (rewrite Hdigits; cbn; auto).
    rewrite Hdigits. unfold substring_from. cbn [String.length String.substring].
    rewrite Nat.sub_succ, Nat.sub_0_r, substring_all. reflexivity.
  - intros phone Hbare.
    unfold MpesaService.validateAndFormatPhone.
    destruct (String.prefix "0" _ && _) eqn:E0.
    { apply local_shape_test in E0.
      destruct (MpesaService.remove_non_digits phone); cbn in *; [tauto|].
      destruct Hbare as [-> _]. destruct E0 as [H _]. discriminate H. }
    rewrite (proj2 (bare_shape_test _) Hbare). reflexivity.
  - intros phone Hprefixed.
    unfold MpesaService.validateAndFormatPhone.
    destruct (String.prefix "0" _ && _) eqn:E0.
    { apply local_shape_test in E0.
      destruct (MpesaService.remove_non_digits phone) as [|a [|b [|c r]]];
        cbn in *; try tauto.
      destruct Hprefixed as [-> _]. destruct E0 as [H _]. discriminate H. }
    destruct (String.prefix "7" _ && _) eqn:E7.
    { apply bare_shape_test in E7.
      destruct (MpesaService.remove_non_digits phone) as [|a [|b [|c r]]];
        cbn in *; try tauto.
      destruct Hprefixed as [-> _]. destruct E7 as [H _]. discriminate H. }
    apply prefixed_shape_test in Hprefixed.
    apply andb_true_iff in Hprefixed as [-> ->]. reflexivity.
Qed.

Lemma validateAndFormatPhone_three_shapes_witness :
  MpesaService.validateAndFormatPhone "+1 (234) 5" = Throw MpesaService.invalid_phone
  /\ MpesaService.validateAndFormatPhone "0712 345 678" = Ok "254712345678"
  /\ MpesaService.validateAndFormatPhone "712-345-678" = Ok "254712345678"
  /\ MpesaService.validateAndFormatPhone "+254 712 345678" = Ok "254712345678".
Proof.
  destruct validateAndFormatPhone_three_shapes
    as (_ & _ & _ & _ & Hreject & Hlocal & Hbare & Hprefixed).
  split; [|split; [|split]].
  - apply (Hreject "+1 (234) 5"); cbn; intros [H _]; discriminate H.
  - apply (Hlocal "0712 345 678" "712345678"); reflexivity.
  - apply (Hbare "712-345-678"). cbn. split; reflexivity.
  - apply (Hprefixed "+254 712 345678"). cbn. repeat split.
Defined.

(* ===================================================================== *)
(** * Push-payment requests *)
(* ===================================================================== *)




Lemma validateAmount_accepts (config : MpesaConfig.t) (amount : Q) (n : Z) :
  MpesaService.validateAmount config amount = Ok n ->
  n = Qfloor amount
  /\ (0 < amount)%Q
  /\ (MpesaConfig.environment config = production -> 10 <= n).
Proof.
  unfold MpesaService.validateAmount, MpesaService.is_production.
  destruct (Qle_bool amount 0) eqn:Epos; [discriminate|].
  assert (Hpos : (0 < amount)%Q).
  { apply Qnot_le_lt. intros H. apply Qle_bool_iff in H. congruence. }
  destruct (MpesaConfig.environment config); cbn.
  - intros [= <-]. repeat split; [exact Hpos|discriminate].
  - destruct (Qle_bool 10 amount) eqn:Emin; cbn; [|discriminate].
    intros [= <-]. repeat split; [exact Hpos|]. intros _.
    apply Qle_bool_iff in Emin. apply Qfloor_resp_le in Emin.
    exact Emin.
Qed.






Example initiateSTKPush_accepted_request :
  fst (MpesaService.initiateSTKPush (Sample.config sandbox)
         (Sample.push_request "0712345678" 100) Sample.empty_world)
  = Ok (STKPushResponse.mk (Some "29115-34620561-1")
          (Some "ws_CO_191220191020363925") (Some "0")
          (Some "Success. Request accepted for processing")
          (Some "Success. Request accepted for processing")).
Proof. vm_compute. reflexivity. Qed.

(* ===================================================================== *)
(** * The payment callback *)
(* ===================================================================== *)

(** C4.  Whatever the request carries and whatever the world is, the
    callback route answers with the fixed acknowledgement: without a body,
    without an stkCallback, with no matching transaction, after a ledger
    update, and after an exception inside the handler. *)
Theorem mpesa_callback_always_acknowledges
    (body : option Callback.t) (w : World) :
  fst (PaymentRoutes.mpesa_callback body w)
  = Ok (Acknowledgement.mk 0 "Success").
Proof.
  destruct w as [os uos txs clk tk ids mt rnd dr rem cs con].
  destruct body as [callback|]; run; [|reflexivity].
  destruct (PaymentRoutes.stk_of callback) as [stk|]; run; [|reflexivity].
  destruct (List.find _ txs) as [doc|] eqn:Hfind; run; [|reflexivity].
  destruct (StkCallback.ResultCode stk) as [|s|n|r];
    cbn [rc_toString rc_is_string_0]; run; rewrite ?Hfind; run;
    try reflexivity.
  destruct (String.eqb s "0"); run; [|reflexivity].
  destruct (PaymentRoutes.metadata_items stk) as [items|]; run; [|reflexivity].
  match goal with
  | |- context [List.find ?p ?l] => destruct (List.find p l)
  end; run; reflexivity.
Qed.

Lemma find_split (p : TxDoc.t -> bool) (l : list TxDoc.t) (d : TxDoc.t) :
  List.find p l = Some d ->
  exists before after,
    l = (before ++ d :: after)%list /\ List.find p before = None /\ p d = true.
Proof.
  induction l as [|x rest IH]; cbn; [discriminate|].
  destruct (p x) eqn:Hx.
  - intros [= ->]. exists [], rest. auto.
  - intros Hfind. destruct (IH Hfind) as (before & after & -> & Hnone & Hd).
    exists (x :: before), after. cbn. rewrite Hx. auto.
Qed.


Lemma update_first_split (p : TxDoc.t -> bool) (f : Transaction.t -> Transaction.t)
    (before after : list TxDoc.t) (d : TxDoc.t) :
  List.find p before = None -> p d = true ->
  TransactionRepository.update_first p f (before ++ d :: after)%list
  = (before ++ TxDoc.mk (TxDoc.id d) (f (TxDoc.data d)) :: after)%list.
Proof.
  intros Hnone Hd. induction before as [|x rest IH]; cbn.
  - rewrite Hd. reflexivity.
  - cbn in Hnone. destruct (p x); [discriminate|]. rewrite (IH Hnone). reflexivity.
Qed.

Lemma has_checkout_merge (checkout id : string) (u : TransactionPatch.t)
    (now : Date) (t : Transaction.t) :
  TransactionRepository.has_checkout checkout
    (TxDoc.mk id (TransactionRepository.merge u now t))
  = TransactionRepository.has_checkout checkout (TxDoc.mk id t).
Proof. reflexivity. Qed.

Lemma has_checkout_data (checkout : string) (d : TxDoc.t) (t : Transaction.t) :
  Transaction.checkoutRequestId t = Transaction.checkoutRequestId (TxDoc.data d) ->
  TransactionRepository.has_checkout checkout (TxDoc.mk (TxDoc.id d) t)
  = TransactionRepository.has_checkout checkout d.
Proof.
  intros H. unfold TransactionRepository.has_checkout. cbn. rewrite H. reflexivity.
Qed.

(** What [items.forEach] leaves in [updateData]: for each of the four
    names, the value of the last item of that name. *)
Lemma collect_items (items : list CallbackItem.t) (u : TransactionPatch.t) :
  let u' := fold_left PaymentRoutes.collect items u in
  TransactionPatch.status u' = TransactionPatch.status u
  /\ TransactionPatch.resultCode u' = TransactionPatch.resultCode u
  /\ TransactionPatch.resultDescription u' = TransactionPatch.resultDescription u
  /\ TransactionPatch.callbackData u' = TransactionPatch.callbackData u
  /\ TransactionPatch.amount u'
     = match Spec.named "Amount" items with
       | Some v => Some v
       | None => TransactionPatch.amount u
       end
  /\ TransactionPatch.mpesaReceiptNumber u'
     = match Spec.named "MpesaReceiptNumber" items with
       | Some v => Some v
       | None => TransactionPatch.mpesaReceiptNumber u
       end
  /\ TransactionPatch.transactionDate u'
     = match Spec.named "TransactionDate" items with
       | Some v => Some v
       | None => TransactionPatch.transactionDate u
       end
  /\ TransactionPatch.phone u'
     = match Spec.named "PhoneNumber" items with
       | Some v => Some v
       | None => TransactionPatch.phone u
       end.
Proof.
  revert u. induction items as [|item rest IH]; intros u.
  - cbn. repeat split.
  - cbn [fold_left Spec.named].
    destruct (IH (PaymentRoutes.collect u item))
      as (H1 & H2 & H3 & H4 & H5 & H6 & H7 & H8).
    cbv zeta. rewrite H1, H2, H3, H4, H5, H6, H7, H8.
    unfold PaymentRoutes.collect.
    destruct (Spec.named "Amount" rest), (Spec.named "MpesaReceiptNumber" rest),
      (Spec.named "TransactionDate" rest), (Spec.named "PhoneNumber" rest);
      destruct (strict_eq_str (CallbackItem.Name item) "Amount"),
        (strict_eq_str (CallbackItem.Name item) "MpesaReceiptNumber"),
        (strict_eq_str (CallbackItem.Name item) "TransactionDate"),
        (strict_eq_str (CallbackItem.Name item) "PhoneNumber");
      cbn; repeat split.
Qed.

Lemma merge_collect (items : list CallbackItem.t) (now : Date) (t : Transaction.t) :
  TransactionRepository.merge
    (fold_left PaymentRoutes.collect items TransactionPatch.empty) now t
  = Spec.with_receipt items now t.
Proof.
  destruct (collect_items items TransactionPatch.empty)
    as (H1 & H2 & H3 & H4 & H5 & H6 & H7 & H8).
  cbv zeta in *. unfold TransactionRepository.merge, Spec.with_receipt.
  rewrite H1, H2, H3, H4, H5, H6, H7, H8. cbn.
  destruct (Spec.named "Amount" items), (Spec.named "MpesaReceiptNumber" items),
    (Spec.named "TransactionDate" items), (Spec.named "PhoneNumber" items);
    reflexivity.
Qed.








(* ===================================================================== *)
(** * Further properties of the order service *)
(* ===================================================================== *)

(** Unfolds the handlers too. *)
Ltac run_all :=
  cbv [OrderController.getOrder OrderController.updateOrderStatus
       OrderController.cancelOrder
       PaymentApi.health PaymentApi.stkpush PaymentApi.transactions
       MpesaHealth.healthCheck TransactionQueries.findByOrderId];
  run.

(** X1.  On an identifier under which no order is stored, [getOrder] gives
    null, and [updateOrderStatus] and [cancelOrder] throw "Order not found";
    none of them changes the world. *)
Theorem missing_order_is_reported
    (w : World) (orderId : string) (next : OrderStatus.t)
    (reason : option string) (why actor : string) :
  orders w !! orderId = None ->
  OrderService.getOrder orderId w = (Ok None, w)
  /\ OrderService.updateOrderStatus orderId next reason w
     = (Throw (Error "Order not found"), w)
  /\ OrderService.cancelOrder orderId why actor w
     = (Throw (Error "Order not found"), w).
Proof.
  intros Hnone. destruct w as [os uos txs clk tk ids mt rnd dr rem cs con].
  cbv [orders] in Hnone. run. rewrite Hnone. repeat split.
Qed.

Lemma missing_order_is_reported_witness :
  OrderService.cancelOrder "o9" "late" "u1"
    (Sample.order_world OrderStatus.PENDING PaymentStatus.PENDING)
  = (Throw (Error "Order not found"),
     Sample.order_world OrderStatus.PENDING PaymentStatus.PENDING).
Proof.
  apply (missing_order_is_reported
           (Sample.order_world OrderStatus.PENDING PaymentStatus.PENDING)
           "o9" OrderStatus.CONFIRMED None "late" "u1").
  reflexivity.
Defined.

(** X2.  When the inventory service does not validate the items, because
    it answers that they are not valid or because the request fails,
    [createOrder] throws "Failed to validate inventory" having sent that one
    request: no order and no index entry is written and no identifier is
    used up. *)
Theorem createOrder_stops_at_inventory_validation
    (request : CreateOrderRequest.t) (w : World) :
  (forall data,
     remote w (InventoryValidate (CreateOrderRequest.items request)) = Http2xx data ->
     ResponseData.valid data = false) ->
  exists w',
    OrderService.createOrder request w
    = (Throw (Error "Failed to validate inventory"), w')
    /\ orders w' = orders w
    /\ user_orders w' = user_orders w
    /\ minted w' = minted w
    /\ calls w'
       = (calls w ++ [InventoryValidate (CreateOrderRequest.items request)])%list.
Proof.
  intros Hinvalid. destruct w as [os uos txs clk tk ids mt rnd dr rem cs con].
  cbv [remote] in Hinvalid. run.
  destruct (rem (InventoryValidate (CreateOrderRequest.items request)))
    as [data|msg em] eqn:Hanswer; run.
  - rewrite (Hinvalid data eq_refl). run. eexists. repeat split.
  - eexists. repeat split.
Qed.

Lemma createOrder_stops_at_inventory_validation_witness :
  exists w',
    OrderService.createOrder Sample.request Cases.offline_world
    = (Throw (Error "Failed to validate inventory"), w')
    /\ orders w' = ∅.
Proof.
  destruct (createOrder_stops_at_inventory_validation Sample.request
              Cases.offline_world)
    as (w' & Hrun & Horders & _).
  - intros data H. discriminate H.
  - exists w'. split; [exact Hrun|exact Horders].
Defined.





(** X5.  An accepted status update records a history entry, under the name
    of the new status and with the time of the call, exactly when it is
    given a reason that is not the empty string; it then replaces the entry
    that status had.  Without a reason, or with the empty one, the history
    is left as it was. *)
Theorem updateOrderStatus_history_needs_reason
    (w : World) (orderId : string) (order : Order.t) (entry : UserOrder.t)
    (next : OrderStatus.t) (reason : option string) :
  orders w !! orderId = Some order ->
  user_orders w !! OrderRepository.index_key (Order.userId order) orderId
  = Some entry ->
  Laws.step (Order.status order) next ->
  exists order' w',
    OrderService.updateOrderStatus orderId next reason w = (Ok (Some order'), w')
    /\ Order.statusHistory order'
       = match reason with
         | Some r =>
             if String.eqb r EmptyString then Order.statusHistory order
             else <[OrderStatus.to_string next
                    := StatusHistoryEntry.mk (clock w (ticks w)) r]>
                    (Order.statusHistory order)
         | None => Order.statusHistory order
         end.
Proof.
  intros Hstored Hentry Hstep.
  destruct w as [os uos txs clk tk ids mt rnd dr rem cs con].
  cbv [orders user_orders] in Hstored, Hentry. unfold Laws.step in Hstep.
  cbv [clock ticks].
  run. rewrite Hstored, Hstep.
  destruct reason as [r|]; [destruct (String.eqb r EmptyString)|];
    cbn; rewrite ?Hstored; cbn; rewrite ?Hentry; cbn;
    rewrite !lookup_insert_eq;
    (eexists; eexists; split; [reflexivity|]; reflexivity).
Qed.

Lemma updateOrderStatus_history_needs_reason_witness :
  exists order' w',
    OrderService.updateOrderStatus "o1" OrderStatus.CONFIRMED (Some EmptyString)
      (Sample.order_world OrderStatus.PENDING PaymentStatus.PAID)
    = (Ok (Some order'), w')
    /\ Order.statusHistory order' = ∅.
Proof.
  destruct (updateOrderStatus_history_needs_reason
              (Sample.order_world OrderStatus.PENDING PaymentStatus.PAID) "o1"
              (Sample.order OrderStatus.PENDING PaymentStatus.PAID)
              (Sample.index_entry OrderStatus.PENDING)
              OrderStatus.CONFIRMED (Some EmptyString) eq_refl eq_refl eq_refl)
    as (order' & w' & Hrun & Hhistory).
  exists order', w'. split; [exact Hrun|exact Hhistory].
Defined.

Lemma cancelOrder_run
    (w : World) (orderId reason actor : string) (order : Order.t) :
  orders w !! orderId = Some order ->
  Spec.cancellable (Order.status order) ->
  exists w',
    OrderService.cancelOrder orderId reason actor w
    = (Ok (Some (OrderPatch.apply
                   (OrderPatch.mk (Some OrderStatus.CANCELLED)
                      (Some (clock w (ticks w))) (Some actor) (Some reason)
                      None (Some (clock w (S (ticks w)))))
                   order)), w')
    /\ orders w'
       = <[orderId
           := OrderPatch.apply
                (OrderPatch.mk (Some OrderStatus.CANCELLED)
                   (Some (clock w (ticks w))) (Some actor) (Some reason)
                   None (Some (clock w (S (ticks w)))))
                order]> (orders w)
    /\ user_orders w' = user_orders w
    /\ mpesa_transactions w' = mpesa_transactions w.
Proof.
  intros Hstored Hstatus.
  destruct w as [os uos txs clk tk ids mt rnd dr rem cs con].
  cbv [orders] in Hstored. cbv [orders user_orders mpesa_transactions clock ticks].
  apply includes_cancellable in Hstatus.
  run. rewrite Hstored, Hstatus. cbn. rewrite Hstored. cbn.
  destruct (PaymentStatus.eqb (Order.paymentStatus order) PaymentStatus.PAID);
    destruct (rem (InventoryRelease orderId (Order.items order)));
    try destruct (rem (OrderService.refund_request order));
    cbn; rewrite !lookup_insert_eq; eexists; repeat split.
Qed.

(** X6.  A successful [cancelOrder] writes the order document only: the
    per-user index is not touched, so its entry keeps the status the order
    had before; the payment status of the order stays what it was, also
    when a refund was requested; no history entry is recorded; items and
    total are kept. *)
Theorem cancelOrder_leaves_index_and_payment_status
    (w : World) (orderId reason actor : string) (order : Order.t) :
  orders w !! orderId = Some order ->
  Spec.cancellable (Order.status order) ->
  exists order' w',
    OrderService.cancelOrder orderId reason actor w = (Ok (Some order'), w')
    /\ orders w' = <[orderId := order']> (orders w)
    /\ user_orders w' = user_orders w
    /\ Order.status order' = OrderStatus.CANCELLED
    /\ Order.paymentStatus order' = Order.paymentStatus order
    /\ Order.statusHistory order' = Order.statusHistory order
    /\ Order.items order' = Order.items order
    /\ Order.total order' = Order.total order.
Proof.
  intros Hstored Hstatus.
  destruct (cancelOrder_run w orderId reason actor order Hstored Hstatus)
    as (w' & Hrun & Horders & Hindex & _).
  eexists; exists w'. split; [exact Hrun|]. split; [exact Horders|].
  split; [exact Hindex|]. repeat split.
Qed.

Lemma cancelOrder_leaves_index_and_payment_status_witness :
  exists order' w',
    OrderService.cancelOrder "o1" "changed my mind" "u1"
      (Sample.order_world OrderStatus.CONFIRMED PaymentStatus.PAID)
    = (Ok (Some order'), w')
    /\ Order.status order' = OrderStatus.CANCELLED
    /\ Order.paymentStatus order' = PaymentStatus.PAID
    /\ user_orders w' !! "u1_o1"
       = Some (Sample.index_entry OrderStatus.CONFIRMED).
Proof.
  destruct (cancelOrder_leaves_index_and_payment_status
              (Sample.order_world OrderStatus.CONFIRMED PaymentStatus.PAID)
              "o1" "changed my mind" "u1"
              (Sample.order OrderStatus.CONFIRMED PaymentStatus.PAID)
              eq_refl (or_intror eq_refl))
    as (order' & w' & Hrun & _ & Hindex & Hstatus & Hpaid & _).
  exists order', w'. split; [exact Hrun|]. split; [exact Hstatus|].
  split; [exact Hpaid|]. rewrite Hindex. reflexivity.
Defined.

(** X7.  For a stored order, [updateOrderStatus] throws the
    invalid-transition error and changes nothing when the order is
    cancelled or refunded, whatever the target, and when the target is the
    status the order already has. *)
Theorem updateOrderStatus_rejects_terminal_and_same
    (w : World) (orderId : string) (order : Order.t)
    (next : OrderStatus.t) (reason : option string) :
  orders w !! orderId = Some order ->
  Order.status order = OrderStatus.CANCELLED
  \/ Order.status order = OrderStatus.REFUNDED
  \/ next = Order.status order ->
  OrderService.updateOrderStatus orderId next reason w
  = (Throw (OrderService.invalid_transition (Order.status order) next), w).
Proof.
  intros Hstored Hcase.
  assert (Hreject :
    OrderService.validateStatusTransition (Order.status order) next
    = Throw (OrderService.invalid_transition (Order.status order) next)).
  { destruct Hcase as [H|[H|H]].
    - rewrite H. destruct next; reflexivity.
    - rewrite H. destruct next; reflexivity.
    - rewrite H. destruct (Order.status order); reflexivity. }
  destruct w as [os uos txs clk tk ids mt rnd dr rem cs con].
  cbv [orders] in Hstored. run. rewrite Hstored, Hreject. reflexivity.
Qed.

Lemma updateOrderStatus_rejects_terminal_and_same_witness :
  OrderService.updateOrderStatus "o1" OrderStatus.PENDING (Some "reopen")
    (Sample.order_world OrderStatus.CANCELLED PaymentStatus.PAID)
  = (Throw (Error "Cannot transition from cancelled to pending"),
     Sample.order_world OrderStatus.CANCELLED PaymentStatus.PAID).
Proof.
  apply (updateOrderStatus_rejects_terminal_and_same
           (Sample.order_world OrderStatus.CANCELLED PaymentStatus.PAID) "o1"
           (Sample.order OrderStatus.CANCELLED PaymentStatus.PAID)
           OrderStatus.PENDING (Some "reopen") eq_refl (or_introl eq_refl)).
Defined.

(** X8.  After [cancelOrder] has returned, the order is out of reach of
    both operations: a second [cancelOrder] throws "Order cannot be
    cancelled at this stage" and [updateOrderStatus] throws the
    invalid-transition error for every target, each leaving the world as
    the first cancellation left it. *)
Theorem cancelOrder_is_final
    (w w' : World) (orderId reason actor : string) (returned : option Order.t) :
  OrderService.cancelOrder orderId reason actor w = (Ok returned, w') ->
  (forall reason' actor',
     OrderService.cancelOrder orderId reason' actor' w'
     = (Throw (Error "Order cannot be cancelled at this stage"), w'))
  /\ (forall next reason',
        OrderService.updateOrderStatus orderId next reason' w'
        = (Throw (OrderService.invalid_transition OrderStatus.CANCELLED next), w')).
Proof.
  intros Hrun.
  assert (Hcancelled :
    exists order', orders w' !! orderId = Some order'
                   /\ Order.status order' = OrderStatus.CANCELLED).
  { destruct (orders w !! orderId) as [order|] eqn:Hstored.
    - destruct (OrderStatus.includes
                  [OrderStatus.PENDING; OrderStatus.CONFIRMED]
                  (Order.status order)) eqn:Hstatus.
      + apply includes_cancellable in Hstatus.
        destruct (cancelOrder_run w orderId reason actor order Hstored Hstatus)
          as (w1 & Hrun1 & Horders & _).
        rewrite Hrun1 in Hrun. injection Hrun as _ <-.
        eexists. split; [rewrite Horders; apply lookup_insert_eq|reflexivity].
      + exfalso. revert Hrun.
        destruct w as [os uos txs clk tk ids mt rnd dr rem cs con].
        cbv [orders] in Hstored. run. rewrite Hstored, Hstatus. cbn.
        discriminate.
    - exfalso. revert Hrun.
      destruct w as [os uos txs clk tk ids mt rnd dr rem cs con].
      cbv [orders] in Hstored. run. rewrite Hstored. discriminate. }
  destruct Hcancelled as (order' & Hstored' & Hstatus').
  split.
  - intros reason' actor'.
    destruct w' as [os uos txs clk tk ids mt rnd dr rem cs con].
    cbv [orders] in Hstored'. run. rewrite Hstored', Hstatus'. reflexivity.
  - intros next reason'.
    destruct w' as [os uos txs clk tk ids mt rnd dr rem cs con].
    cbv [orders] in Hstored'. run. rewrite Hstored', Hstatus'.
    destruct next; reflexivity.
Qed.

Lemma cancelOrder_is_final_witness :
  OrderService.cancelOrder "o1" "again" "u2"
    (snd (OrderService.cancelOrder "o1" "changed my mind" "u1"
            (Sample.order_world OrderStatus.CONFIRMED PaymentStatus.PAID)))
  = (Throw (Error "Order cannot be cancelled at this stage"),
     snd (OrderService.cancelOrder "o1" "changed my mind" "u1"
            (Sample.order_world OrderStatus.CONFIRMED PaymentStatus.PAID))).
Proof.
  refine (proj1 (cancelOrder_is_final
                   (Sample.order_world OrderStatus.CONFIRMED PaymentStatus.PAID)
                   _ "o1" "changed my mind" "u1" _ _) "again" "u2").
  vm_compute. reflexivity.
Defined.

Lemma step_climbs (a b : OrderStatus.t) :
  Laws.step a b ->
  (Laws.rank a < Laws.rank b)%nat
  \/ (Laws.rank a = 0%nat /\ Laws.rank b = 0%nat).
Proof.
  unfold Laws.step. destruct a, b; cbn; intros H; try discriminate H; lia.
Qed.

Lemma chain_climbs (a b : OrderStatus.t) :
  tc Laws.step a b ->
  (Laws.rank a <= Laws.rank b)%nat
  /\ (Laws.rank a = Laws.rank b -> Laws.rank a = 0%nat).
Proof.
  induction 1 as [a b Hstep|a b c Hstep _ [IHle IHeq]].
  - destruct (step_climbs a b Hstep); lia.
  - destruct (step_climbs a b Hstep); lia.
Qed.

(** X9.  The transition table of [validateStatusTransition] has no cycle
    but the one between pending and failed: a chain of accepted transitions
    that comes back to the status it started from can only have started
    from pending or from failed. *)
Theorem accepted_transitions_only_cycle_through_pending_and_failed
    (s : OrderStatus.t) :
  tc Laws.step s s -> s = OrderStatus.PENDING \/ s = OrderStatus.FAILED.
Proof.
  intros Hcycle. destruct (chain_climbs s s Hcycle) as [_ Hzero].
  specialize (Hzero eq_refl). destruct s; cbn in Hzero; try discriminate Hzero; auto.
Qed.

Lemma accepted_transitions_only_cycle_through_pending_and_failed_witness :
  tc Laws.step OrderStatus.PENDING OrderStatus.PENDING
  /\ (OrderStatus.PENDING = OrderStatus.PENDING
      \/ OrderStatus.PENDING = OrderStatus.FAILED).
Proof.
  assert (Hcycle : tc Laws.step OrderStatus.PENDING OrderStatus.PENDING).
  { apply (tc_l _ _ OrderStatus.FAILED); [reflexivity|].
    apply tc_once. reflexivity. }
  split; [exact Hcycle|].
  exact (accepted_transitions_only_cycle_through_pending_and_failed
           OrderStatus.PENDING Hcycle).
Defined.

(* ===================================================================== *)
(** * Properties of the order controller *)
(* ===================================================================== *)

(** X10.  The handler of GET /api/orders/:id never throws and never
    changes the world.  It answers 404 when no order has the identifier,
    403 without data when the order belongs to another user and the caller
    is no admin, and 200 with the order otherwise: an order is only ever
    sent to its owner or to an admin. *)
Theorem getOrder_handler_serves_owner_or_admin
    (id : string) (user : User.t) (w : World) :
  exists reply,
    OrderController.getOrder id user w = (Ok reply, w)
    /\ (orders w !! id = None ->
        Reply.statusCode reply = 404 /\ Reply.data reply = None)
    /\ (forall o,
          orders w !! id = Some o ->
          Order.userId o <> User.uid user -> User.isAdmin user = false ->
          Reply.statusCode reply = 403 /\ Reply.data reply = None)
    /\ (forall o,
          orders w !! id = Some o ->
          Order.userId o = User.uid user \/ User.isAdmin user = true ->
          Reply.statusCode reply = 200 /\ Reply.data reply = Some o)
    /\ (forall o,
          Reply.data reply = Some o ->
          orders w !! id = Some o
          /\ (Order.userId o = User.uid user \/ User.isAdmin user = true)).
Proof.
  destruct w as [os uos txs clk tk ids mt rnd dr rem cs con].
  cbv [orders]. run_all.
  destruct (os !! id) as [o|] eqn:Hstored; run.
  - destruct (String.eqb (Order.userId o) (User.uid user)) eqn:Howner.
    + apply String.eqb_eq in Howner. cbn.
      eexists. split; [reflexivity|]. cbn.
      split; [discriminate|]. split; [intros ? [= <-] ? _; contradiction|].
      split; [intros ? [= <-] _; auto|]. intros ? [= <-]. auto.
    + apply String.eqb_neq in Howner.
      destruct (User.isAdmin user) eqn:Hadmin; cbn.
      * eexists. split; [reflexivity|]. cbn.
        split; [discriminate|]. split; [intros ? _ _ H; discriminate H|].
        split; [intros ? [= <-] _; auto|]. intros ? [= <-]. auto.
      * eexists. split; [reflexivity|]. cbn.
        split; [discriminate|]. split; [intros; auto|].
        split; [intros ? [= <-] [H|H]; [contradiction|discriminate H]|].
        intros ? H. discriminate H.
  - eexists. split; [reflexivity|]. cbn.
    split; [auto|]. split; [intros ? H; discriminate H|].
    split; [intros ? H; discriminate H|]. intros ? H. discriminate H.
Qed.

Lemma getOrder_handler_serves_owner_or_admin_witness :
  exists reply,
    fst (OrderController.getOrder "o1" Cases.stranger
           (Sample.order_world OrderStatus.PENDING PaymentStatus.PENDING))
    = Ok reply
    /\ Reply.statusCode reply = 403
    /\ Reply.data reply = None.
Proof.
  destruct (getOrder_handler_serves_owner_or_admin "o1" Cases.stranger
              (Sample.order_world OrderStatus.PENDING PaymentStatus.PENDING))
    as (reply & Hrun & _ & Hdenied & _).
  destruct (Hdenied (Sample.order OrderStatus.PENDING PaymentStatus.PENDING)
              eq_refl) as [Hcode Hdata]; [discriminate|reflexivity|].
  exists reply. rewrite Hrun. split; [reflexivity|]. split; assumption.
Defined.

Lemma parse_status_six (v : value) (s : OrderStatus.t) :
  OrderController.parse_status v = Some s ->
  s <> OrderStatus.REFUNDED /\ s <> OrderStatus.FAILED.
Proof.
  unfold OrderController.parse_status. destruct v as [| |b|q|t]; try discriminate.
  repeat (match goal with
          | |- context [if ?c then _ else _] => destruct c
          end; [intros [= <-]; split; discriminate|]).
  discriminate.
Qed.

Lemma safeParse_six (body : option UpdateStatusBody.t) (s : OrderStatus.t)
    (r : option string) :
  OrderController.safeParse body = Some (s, r) ->
  s <> OrderStatus.REFUNDED /\ s <> OrderStatus.FAILED.
Proof.
  unfold OrderController.safeParse. destruct body as [b|]; [|discriminate].
  destruct (OrderController.parse_status (UpdateStatusBody.status b)) as [s'|]
    eqn:Hs; [|discriminate].
  destruct (OrderController.parse_reason (UpdateStatusBody.reason b));
    [|discriminate].
  intros [= <- _]. exact (parse_status_six _ _ Hs).
Qed.

(** X11.  The handler of the admin status route never throws.  A caller
    who is no admin gets 403 and a body that fails the schema gets 400, the
    world unchanged in both cases.  Whatever the request, if the stored
    status of the order is different afterwards, the new status is neither
    refunded nor failed: the schema admits only the other six names, so
    the two transitions into refunded and the one into failed cannot be
    made through this route. *)
Theorem updateOrderStatus_handler_guards
    (id : string) (user : User.t) (body : option UpdateStatusBody.t) (w : World) :
  exists reply w',
    OrderController.updateOrderStatus id user body w = (Ok reply, w')
    /\ (User.isAdmin user = false ->
        w' = w /\ Reply.statusCode reply = 403 /\ Reply.data reply = None)
    /\ (User.isAdmin user = true -> OrderController.safeParse body = None ->
        w' = w /\ Reply.statusCode reply = 400
        /\ Reply.error reply = Some "Validation failed")
    /\ (forall o o',
          orders w !! id = Some o -> orders w' !! id = Some o' ->
          Order.status o' <> Order.status o ->
          Order.status o' <> OrderStatus.REFUNDED
          /\ Order.status o' <> OrderStatus.FAILED).
Proof.
  destruct w as [os uos txs clk tk ids mt rnd dr rem cs con].
  cbv [orders]. run_all.
  destruct (User.isAdmin user); cbn [negb]; run.
  2: { eexists; eexists. split; [reflexivity|]. cbn.
       split; [intros _; repeat split|]. split; [intros H; discriminate H|].
       intros o o' Ho Ho' Hne. congruence. }
  destruct (OrderController.safeParse body) as [[s r]|] eqn:Hparse; run.
  2: { eexists; eexists. split; [reflexivity|]. cbn.
       split; [intros H; discriminate H|]. split; [intros _ _; repeat split|].
       intros o o' Ho Ho' Hne. congruence. }
  pose proof (safeParse_six _ _ _ Hparse) as Hsix.
  destruct (os !! id) as [order|] eqn:Hstored; run.
  2: { eexists; eexists. split; [reflexivity|]. cbn.
       split; [intros H; discriminate H|].
       split; [intros _ H; discriminate H|].
       intros o o' Ho Ho' Hne. congruence. }
  destruct (OrderService.validateStatusTransition (Order.status order) s)
    as [[]|e]; run.
  2: { eexists; eexists. split; [reflexivity|]. cbn.
       split; [intros H; discriminate H|].
       split; [intros _ H; discriminate H|].
       intros o o' Ho Ho' Hne. congruence. }
  rewrite Hstored. run.
  destruct r as [r|]; [destruct (String.eqb r EmptyString)|];
    run; rewrite ?Hstored; run;
    (destruct (uos !! OrderRepository.index_key (Order.userId order) id); run;
     eexists; eexists; (split; [reflexivity|]); cbn;
     (split; [intros H; discriminate H|]);
     (split; [intros _ H; discriminate H|]);
     intros o o' Ho Ho' Hne; rewrite lookup_insert_eq in Ho';
     injection Ho' as <-; exact Hsix).
Qed.

Lemma updateOrderStatus_handler_guards_witness :
  exists reply,
    OrderController.updateOrderStatus "o1" Cases.admin
      (Some (UpdateStatusBody.mk (VStr "refunded") VUndefined))
      (Sample.order_world OrderStatus.DELIVERED PaymentStatus.PAID)
    = (Ok reply, Sample.order_world OrderStatus.DELIVERED PaymentStatus.PAID)
    /\ Reply.statusCode reply = 400
    /\ Reply.error reply = Some "Validation failed".
Proof.
  destruct (updateOrderStatus_handler_guards "o1" Cases.admin
              (Some (UpdateStatusBody.mk (VStr "refunded") VUndefined))
              (Sample.order_world OrderStatus.DELIVERED PaymentStatus.PAID))
    as (reply & w' & Hrun & _ & Hschema & _).
  destruct (Hschema eq_refl eq_refl) as (-> & Hcode & Herror).
  exists reply. split; [exact Hrun|]. split; assumption.
Defined.

(** X12.  The handler of the cancel route asks nothing about who owns the
    order: for a stored order that is pending or confirmed and any caller,
    it answers 200 with the order, now cancelled, the caller recorded as
    [cancelledBy].  When the service throws, the answer is 400 with the
    error's message, also for an order that does not exist. *)
Theorem cancelOrder_handler_accepts_any_caller
    (id : string) (user : User.t) (body : CancelBody.t) (w : World) :
  (forall order,
     orders w !! id = Some order -> Spec.cancellable (Order.status order) ->
     exists order' w',
       OrderController.cancelOrder id user (Some body) w
       = (Ok (Reply.mk 200 true (Some (Some order')) None None
                (Some "Order cancelled successfully")), w')
       /\ orders w' !! id = Some order'
       /\ Order.status order' = OrderStatus.CANCELLED
       /\ Order.cancelledBy order' = Some (User.uid user)
       /\ Order.cancellationReason order' = Some (CancelBody.reason body))
  /\ (forall order,
        orders w !! id = Some order -> ~ Spec.cancellable (Order.status order) ->
        exists w',
          OrderController.cancelOrder id user (Some body) w
          = (Ok (Reply.mk 400 false None
                   (Some "Order cannot be cancelled at this stage") None None), w')
          /\ orders w' = orders w)
  /\ (orders w !! id = None ->
      exists w',
        OrderController.cancelOrder id user (Some body) w
        = (Ok (Reply.mk 400 false None (Some "Order not found") None None), w')
        /\ orders w' = orders w).
Proof.
  split; [|split].
  - intros order Hstored Hstatus.
    destruct (cancelOrder_run w id (CancelBody.reason body) (User.uid user)
                order Hstored Hstatus)
      as (w' & Hrun & Horders & _).
    cbv [OrderController.cancelOrder try_catch bind ret].
    rewrite Hrun. eexists; eexists. split; [reflexivity|].
    rewrite Horders, lookup_insert_eq. repeat split.
  - intros order Hstored Hstatus.
    destruct w as [os uos txs clk tk ids mt rnd dr rem cs con].
    cbv [orders] in *. run_all. rewrite Hstored.
    destruct (OrderStatus.includes _ (Order.status order)) eqn:E.
    { apply includes_cancellable in E. contradiction. }
    cbn. eexists. split; reflexivity.
  - intros Hstored.
    destruct w as [os uos txs clk tk ids mt rnd dr rem cs con].
    cbv [orders] in *. run_all. rewrite Hstored.
    cbn. eexists. split; reflexivity.
Qed.

Lemma cancelOrder_handler_accepts_any_caller_witness :
  exists order' w',
    OrderController.cancelOrder "o1" Cases.stranger
      (Some (CancelBody.mk "not mine"))
      (Sample.order_world OrderStatus.PENDING PaymentStatus.PENDING)
    = (Ok (Reply.mk 200 true (Some (Some order')) None None
             (Some "Order cancelled successfully")), w')
    /\ Order.userId order' = "u1"
    /\ Order.cancelledBy order' = Some "u2".
Proof.
  destruct (proj1 (cancelOrder_handler_accepts_any_caller "o1" Cases.stranger
                     (CancelBody.mk "not mine")
                     (Sample.order_world OrderStatus.PENDING PaymentStatus.PENDING))
              (Sample.order OrderStatus.PENDING PaymentStatus.PENDING)
              eq_refl (or_introl eq_refl))
    as (order' & w' & Hrun & _ & _ & Hby & _).
  exists order', w'. split; [exact Hrun|]. split; [|exact Hby].
  revert Hrun. vm_compute. intros [= <- _]. reflexivity.
Defined.

(* ===================================================================== *)
(** * Further properties of the payment service *)
(* ===================================================================== *)

Lemma all_digits_remove_non_digits (s : string) :
  Laws.all_digits (MpesaService.remove_non_digits s) = true.
Proof.
  induction s as [|c s IH]; cbn; [reflexivity|].
  destruct (MpesaService.is_digit c) eqn:Hc; [|exact IH].
  cbn. rewrite Hc, IH. reflexivity.
Qed.

Lemma remove_non_digits_of_digits (d : string) :
  Laws.all_digits d = true -> MpesaService.remove_non_digits d = d.
Proof.
  induction d as [|c d IH]; cbn; [reflexivity|].
  intros H. apply andb_true_iff in H as [Hc Hd]. rewrite Hc, (IH Hd). reflexivity.
Qed.

Lemma app_254 (rest : string) :
  "254" +:+ rest = String "2" (String "5" (String "4" rest)).
Proof. reflexivity. Qed.

Lemma normalized_phone_is_stable (rest : string) :
  String.length rest = 9%nat -> Laws.all_digits rest = true ->
  MpesaService.validateAndFormatPhone ("254" +:+ rest) = Ok ("254" +:+ rest).
Proof.
  intros Hlength Hdigits. unfold MpesaService.validateAndFormatPhone.
  rewrite app_254.
  rewrite remove_non_digits_of_digits by (cbn; exact Hdigits).
  cbn. rewrite Hlength, prefix_empty. reflexivity.
Qed.

(** X13.  Whatever [validateAndFormatPhone] accepts, it answers with
    twelve decimal digits that begin with 254, and it accepts its own
    answers unchanged: normalising twice is normalising once. *)
Theorem validateAndFormatPhone_normal_form (phone normalized : string) :
  MpesaService.validateAndFormatPhone phone = Ok normalized ->
  String.length normalized = 12%nat
  /\ String.prefix "254" normalized = true
  /\ Laws.all_digits normalized = true
  /\ MpesaService.validateAndFormatPhone normalized = Ok normalized.
Proof.
  intros Hok.
  pose proof (all_digits_remove_non_digits phone) as Hdigits.
  assert (Hshape : exists rest,
             normalized = "254" +:+ rest
             /\ String.length rest = 9%nat /\ Laws.all_digits rest = true).
  { unfold MpesaService.validateAndFormatPhone in Hok.
    destruct (String.prefix "0" _ && _) eqn:E0.
    { apply local_shape_test in E0.
      destruct (MpesaService.remove_non_digits phone) as [|c rest];
        [contradiction|].
      destruct E0 as [-> Hlength].
      unfold substring_from in Hok. cbn [String.length String.substring] in Hok.
      rewrite Nat.sub_succ, Nat.sub_0_r, substring_all in Hok.
      injection Hok as <-. exists rest. split; [reflexivity|].
      split; [exact Hlength|].
      change (Laws.all_digits rest = true) in Hdigits. exact Hdigits. }
    destruct (String.prefix "7" _ && _) eqn:E7.
    { apply bare_shape_test in E7.
      destruct (MpesaService.remove_non_digits phone) as [|c rest];
        [contradiction|].
      destruct E7 as [-> Hlength].
      injection Hok as <-. exists (String "7" rest). split; [reflexivity|].
      split; [cbn; rewrite Hlength; reflexivity|exact Hdigits]. }
    destruct (String.prefix "254" (MpesaService.remove_non_digits phone)) eqn:Ep;
      [|discriminate].
    destruct (String.length (MpesaService.remove_non_digits phone) =? 12)%nat
      eqn:El; [|discriminate].
    cbn in Hok. injection Hok as <-.
    assert (Hthree : Spec.prefixed_shape (MpesaService.remove_non_digits phone)).
    { apply prefixed_shape_test. rewrite Ep, El. reflexivity. }
    destruct (MpesaService.remove_non_digits phone) as [|a [|b [|c rest]]];
      try contradiction.
    destruct Hthree as (-> & -> & -> & Hlength).
    exists rest. split; [reflexivity|]. split; [exact Hlength|].
    change (Laws.all_digits rest = true) in Hdigits. exact Hdigits. }
  destruct Hshape as (rest & -> & Hlength & Hrest).
  split; [rewrite app_254; cbn; rewrite Hlength; reflexivity|].
  split; [rewrite app_254; cbn; apply prefix_empty|].
  split; [exact Hrest|].
  apply normalized_phone_is_stable; assumption.
Qed.

Lemma validateAndFormatPhone_normal_form_witness :
  MpesaService.validateAndFormatPhone "254712345678" = Ok "254712345678".
Proof.
  apply (validateAndFormatPhone_normal_form "0712 345 678" "254712345678").
  reflexivity.
Defined.



Lemma forallb_below (f : N -> bool) (k : nat) :
  forallb f (List.map N.of_nat (seq 0 k)) = true ->
  forall n, (n < N.of_nat k)%N -> f n = true.
Proof.
  intros Hall n Hn. rewrite forallb_forall in Hall. apply Hall.
  apply in_map_iff. exists (N.to_nat n). split; [apply N2Nat.id|].
  apply in_seq. lia.
Qed.

Lemma base64_digit_decodes (x : N) :
  (x < 64)%N ->
  exists c,
    MpesaService.base64_digit x = String c EmptyString
    /\ Base64.value_of c = x
    /\ Ascii.eqb c "=" = false.
Proof.
  intros Hx.
  pose (check := fun n =>
    match MpesaService.base64_digit n with
    | String c EmptyString =>
        N.eqb (Base64.value_of c) n && negb (Ascii.eqb c "=")
    | _ => false
    end).
  assert (Hcheck : check x = true).
  { apply (forallb_below check 64); [vm_compute; reflexivity|exact Hx]. }
  unfold check in Hcheck.
  destruct (MpesaService.base64_digit x) as [|c [|]]; try discriminate.
  apply andb_true_iff in Hcheck as [Hvalue Hpad].
  exists c. split; [reflexivity|]. split; [apply N.eqb_eq, Hvalue|].
  destruct (Ascii.eqb c "="); [discriminate|reflexivity].
Qed.

Lemma divmod_pack (q r k : N) :
  (r < k -> (q * k + r) / k = q /\ (q * k + r) mod k = r)%N.
Proof.
  intros Hr. split.
  - symmetry. apply (N.div_unique _ k q r); [exact Hr|lia].
  - symmetry. apply (N.mod_unique _ k q r); [exact Hr|lia].
Qed.

Lemma split_byte (a k : N) :
  (k <> 0 -> a = a / k * k + a mod k /\ a mod k < k)%N.
Proof.
  intros Hk. split; [|apply N.mod_lt; exact Hk].
  rewrite N.mul_comm. apply N.div_mod'.
Qed.

Lemma base64_block (a b c : N) :
  (a < 256 -> b < 256 -> c < 256 ->
   a / 4 * 4 + (a mod 4 * 16 + b / 16) / 16 = a
   /\ ((a mod 4 * 16 + b / 16) mod 16) * 16 + (b mod 16 * 4 + c / 64) / 4 = b
   /\ ((b mod 16 * 4 + c / 64) mod 4) * 64 + c mod 64 = c
   /\ a / 4 < 64 /\ a mod 4 * 16 + b / 16 < 64
   /\ b mod 16 * 4 + c / 64 < 64 /\ c mod 64 < 64)%N.
Proof.
  intros Ha Hb Hc.
  destruct (split_byte a 4) as [Ea Ra]; [discriminate|].
  destruct (split_byte b 16) as [Eb Rb]; [discriminate|].
  destruct (split_byte c 64) as [Ec Rc]; [discriminate|].
  assert (Qa : (a / 4 < 64)%N) by (apply N.Div0.div_lt_upper_bound; exact Ha).
  assert (Qb : (b / 16 < 16)%N) by (apply N.Div0.div_lt_upper_bound; exact Hb).
  assert (Qc : (c / 64 < 4)%N) by (apply N.Div0.div_lt_upper_bound; exact Hc).
  destruct (divmod_pack (a mod 4) (b / 16) 16 Qb) as [D1 M1].
  destruct (divmod_pack (b mod 16) (c / 64) 4 Qc) as [D2 M2].
  rewrite D1, M1, D2, M2. lia.
Qed.

Lemma append_char (c : ascii) (s : string) :
  String c EmptyString +:+ s = String c s.
Proof. reflexivity. Qed.

Lemma decode_base64_bytes (l : list N) :
  Forall (fun b => (b < 256)%N) l ->
  Base64.decode (MpesaService.base64_bytes l) = l.
Proof.
  assert (Hbounded : forall n l,
            (length l <= n)%nat -> Forall (fun b => (b < 256)%N) l ->
            Base64.decode (MpesaService.base64_bytes l) = l).
  { clear l. induction n as [|n IH]; intros l Hlength Hbytes.
    { destruct l; [reflexivity|cbn in Hlength; lia]. }
    destruct l as [|a [|b [|c rest]]]; [reflexivity|..].
    - apply Forall_cons_1 in Hbytes as [Ha _].
      destruct (base64_block a 0 0 Ha eq_refl eq_refl)
        as (E1 & _ & _ & B1 & B2 & _).
      change (0 / 16)%N with 0%N in *. rewrite N.add_0_r in *.
      cbn [MpesaService.base64_bytes].
      destruct (base64_digit_decodes _ B1) as (c1 & -> & V1 & _).
      destruct (base64_digit_decodes _ B2) as (c2 & -> & V2 & _).
      rewrite !append_char.
      cbn [Base64.decode]. change (Ascii.eqb "=" "=") with true. cbv iota.
      rewrite V1, V2, E1. reflexivity.
    - apply Forall_cons_1 in Hbytes as [Ha Hbytes].
      apply Forall_cons_1 in Hbytes as [Hb _].
      destruct (base64_block a b 0 Ha Hb eq_refl)
        as (E1 & E2 & _ & B1 & B2 & B3 & _).
      change (0 / 64)%N with 0%N in *. rewrite N.add_0_r in *.
      cbn [MpesaService.base64_bytes].
      destruct (base64_digit_decodes _ B1) as (c1 & -> & V1 & _).
      destruct (base64_digit_decodes _ B2) as (c2 & -> & V2 & _).
      destruct (base64_digit_decodes _ B3) as (c3 & -> & V3 & P3).
      rewrite !append_char.
      cbn [Base64.decode]. rewrite P3. change (Ascii.eqb "=" "=") with true.
      cbv iota. rewrite V1, V2, V3, E1, E2. reflexivity.
    - apply Forall_cons_1 in Hbytes as [Ha Hbytes].
      apply Forall_cons_1 in Hbytes as [Hb Hbytes].
      apply Forall_cons_1 in Hbytes as [Hc Hrest].
      destruct (base64_block a b c Ha Hb Hc)
        as (E1 & E2 & E3 & B1 & B2 & B3 & B4).
      cbn [MpesaService.base64_bytes].
      destruct (base64_digit_decodes _ B1) as (c1 & -> & V1 & _).
      destruct (base64_digit_decodes _ B2) as (c2 & -> & V2 & _).
      destruct (base64_digit_decodes _ B3) as (c3 & -> & V3 & P3).
      destruct (base64_digit_decodes _ B4) as (c4 & -> & V4 & P4).
      rewrite !append_char.
      cbn [Base64.decode]. rewrite P3, P4. cbv iota.
      rewrite V1, V2, V3, V4, E1, E2, E3.
      rewrite (IH rest); [reflexivity| |exact Hrest].
      cbn in Hlength. lia. }
  apply (Hbounded (length l) l). reflexivity.
Qed.

Lemma bytes_of_bounded (s : string) :
  Forall (fun b => (b < 256)%N) (MpesaService.bytes_of s).
Proof.
  induction s as [|c s IH]; cbn; constructor; [apply N_ascii_bounded|exact IH].
Qed.

Lemma bytes_of_inj (s t : string) :
  MpesaService.bytes_of s = MpesaService.bytes_of t -> s = t.
Proof.
  revert t. induction s as [|c s IH]; intros [|d t]; cbn; intros H;
    try discriminate; [reflexivity|].
  injection H as Hc Hrest. f_equal; [|apply IH, Hrest].
  rewrite <- (ascii_N_embedding c), <- (ascii_N_embedding d), Hc. reflexivity.
Qed.

(** X15.  The password of a push request can be read back: decoding it as
    base64 gives the bytes of short code, pass key and timestamp in that
    order.  Hence, for one configuration, two timestamps give the same
    password only when they are the same timestamp. *)
Theorem generatePassword_decodes (config : MpesaConfig.t) (timestamp : string) :
  Base64.decode (MpesaService.generatePassword config timestamp)
  = MpesaService.bytes_of
      (MpesaConfig.shortCode config +:+ MpesaConfig.passKey config +:+ timestamp)
  /\ (forall timestamp',
        MpesaService.generatePassword config timestamp
        = MpesaService.generatePassword config timestamp' ->
        timestamp = timestamp').
Proof.
  split.
  - apply decode_base64_bytes, bytes_of_bounded.
  - intros timestamp' Hsame. unfold MpesaService.generatePassword in Hsame.
    apply (f_equal Base64.decode) in Hsame.
    rewrite !decode_base64_bytes in Hsame by apply bytes_of_bounded.
    apply bytes_of_inj in Hsame.
    apply (inj (String.append _)) in Hsame.
    apply (inj (String.append _)) in Hsame. exact Hsame.
Qed.

Lemma generatePassword_decodes_witness :
  Base64.decode "MTc0Mzc5cGFzc2tleTIwMjMxMTE0MTIwMDAw"
  = MpesaService.bytes_of "174379passkey20231114120000".
Proof.
  exact (proj1 (generatePassword_decodes (Sample.config sandbox) "20231114120000")).
Defined.

Lemma all_digits_append (a b : string) :
  Laws.all_digits (a +:+ b) = Laws.all_digits a && Laws.all_digits b.
Proof.
  induction a as [|c a IH]; [reflexivity|].
  change (String c a +:+ b) with (String c (a +:+ b)). cbn [Laws.all_digits].
  rewrite IH, andb_assoc. reflexivity.
Qed.

Lemma length_append (a b : string) :
  String.length (a +:+ b) = (String.length a + String.length b)%nat.
Proof.
  induction a as [|c a IH]; [reflexivity|].
  change (String c a +:+ b) with (String c (a +:+ b)). cbn [String.length].
  rewrite IH. reflexivity.
Qed.

Lemma pad2_two_digits (n : N) :
  (n < 100)%N ->
  String.length (MpesaService.pad2 n) = 2%nat
  /\ Laws.all_digits (MpesaService.pad2 n) = true.
Proof.
  intros Hn.
  pose (check := fun n =>
    (String.length (MpesaService.pad2 n) =? 2)%nat
    && Laws.all_digits (MpesaService.pad2 n)).
  assert (Hcheck : check n = true).
  { apply (forallb_below check 100); [vm_compute; reflexivity|exact Hn]. }
  unfold check in Hcheck. apply andb_true_iff in Hcheck as [Hlength Hdigits].
  split; [apply Nat.eqb_eq, Hlength|exact Hdigits].
Qed.

Lemma year_four_digits (y : N) :
  (1000 <= y < 10000)%N ->
  String.length (pretty y) = 4%nat /\ Laws.all_digits (pretty y) = true.
Proof.
  intros [Hlow Hhigh].
  pose (check := fun n =>
    (n <? 1000)%N
    || ((String.length (pretty n) =? 4)%nat && Laws.all_digits (pretty n))).
  assert (Hcheck : check y = true).
  { apply (forallb_below check (N.to_nat 10000));
      [vm_compute; reflexivity|rewrite N2Nat.id; exact Hhigh]. }
  unfold check in Hcheck. apply orb_true_iff in Hcheck as [Hsmall|Hcheck].
  - apply N.ltb_lt in Hsmall. lia.
  - apply andb_true_iff in Hcheck as [Hlength Hdigits].
    split; [apply Nat.eqb_eq, Hlength|exact Hdigits].
Qed.

(** X16.  When the clock gives a date with a four-digit year and month,
    day, hour, minute and second in their ranges, [generateTimestamp]
    returns fourteen decimal digits: the year, then two digits for each of
    the month counted from 1, the day, the hour, the minute and the second.
    It reads the clock once. *)
Theorem generateTimestamp_fourteen_digits (w : World) :
  Laws.calendar (clock w (ticks w)) ->
  exists timestamp w',
    MpesaService.generateTimestamp w = (Ok timestamp, w')
    /\ timestamp
       = pretty (getFullYear (clock w (ticks w)))
         +:+ MpesaService.pad2 (getMonth (clock w (ticks w)) + 1)
         +:+ MpesaService.pad2 (getDate (clock w (ticks w)))
         +:+ MpesaService.pad2 (getHours (clock w (ticks w)))
         +:+ MpesaService.pad2 (getMinutes (clock w (ticks w)))
         +:+ MpesaService.pad2 (getSeconds (clock w (ticks w)))
    /\ String.length timestamp = 14%nat
    /\ Laws.all_digits timestamp = true
    /\ ticks w' = S (ticks w).
Proof.
  intros (Hyear & Hmonth & Hday & Hhour & Hminute & Hsecond).
  destruct (year_four_digits _ Hyear) as [Ly Dy].
  destruct (pad2_two_digits (getMonth (clock w (ticks w)) + 1)) as [Lm Dm]; [lia|].
  destruct (pad2_two_digits (getDate (clock w (ticks w)))) as [Ld Dd]; [lia|].
  destruct (pad2_two_digits (getHours (clock w (ticks w)))) as [Lh Dh]; [lia|].
  destruct (pad2_two_digits (getMinutes (clock w (ticks w)))) as [Li Di]; [lia|].
  destruct (pad2_two_digits (getSeconds (clock w (ticks w)))) as [Ls Ds]; [lia|].
  eexists; eexists. split; [reflexivity|]. split; [reflexivity|].
  split; [|split; [|reflexivity]].
  - rewrite !length_append, Ly, Lm, Ld, Lh, Li, Ls. reflexivity.
  - rewrite !all_digits_append, Dy, Dm, Dd, Dh, Di, Ds. reflexivity.
Qed.

Lemma generateTimestamp_fourteen_digits_witness :
  exists w',
    MpesaService.generateTimestamp Sample.empty_world = (Ok "20231114120000", w').
Proof.
  destruct (generateTimestamp_fourteen_digits Sample.empty_world)
    as (timestamp & w' & Hrun & -> & _).
  - cbv. repeat split; discriminate.
  - exists w'. exact Hrun.
Defined.



(** X18.  [initiateSTKPush] sends nothing, or the token request alone, or
    the token request followed by one push request; it returns only in the
    last case.  A push request that is sent carries the token received, the
    floor of the amount, the normalised telephone number both as payer and
    as phone number, the short code both as business and as recipient, and
    as password the base64 text of short code, pass key and the very
    timestamp it carries. *)
Theorem initiateSTKPush_sends_token_then_push
    (config : MpesaConfig.t) (request : STKPushRequest.t) (w : World) :
  exists outcome w' sent,
    MpesaService.initiateSTKPush config request w = (outcome, w')
    /\ calls w' = (calls w ++ sent)%list
    /\ (sent = []
        \/ sent = [OAuthGenerate (MpesaConfig.consumerKey config)
                     (MpesaConfig.consumerSecret config)]
        \/ exists token payload data,
             sent = [OAuthGenerate (MpesaConfig.consumerKey config)
                       (MpesaConfig.consumerSecret config);
                     StkPushProcessRequest token payload]
             /\ remote w (OAuthGenerate (MpesaConfig.consumerKey config)
                            (MpesaConfig.consumerSecret config))
                = Http2xx data
             /\ ResponseData.access_token data = Some token
             /\ StkPayload.Amount payload = Qfloor (STKPushRequest.amount request)
             /\ MpesaService.validateAndFormatPhone (STKPushRequest.phone request)
                = Ok (StkPayload.PartyA payload)
             /\ StkPayload.PhoneNumber payload = StkPayload.PartyA payload
             /\ StkPayload.BusinessShortCode payload = MpesaConfig.shortCode config
             /\ StkPayload.PartyB payload = MpesaConfig.shortCode config
             /\ StkPayload.Password payload
                = MpesaService.generatePassword config (StkPayload.Timestamp payload))
    /\ (forall response, outcome = Ok response -> length sent = 2%nat).
Proof.
  destruct w as [os uos txs clk tk ids mt rnd dr rem cs con].
  cbv [remote calls]. run.
  destruct (MpesaService.validateAndFormatPhone (STKPushRequest.phone request))
    as [phone|e] eqn:Hphone; run.
  2: { eexists; eexists; exists []. split; [reflexivity|]. cbn.
       rewrite app_nil_r. split; [reflexivity|]. split; [auto|].
       intros ? H; discriminate H. }
  destruct (MpesaService.validateAmount config (STKPushRequest.amount request))
    as [amount|e] eqn:Hamount; run.
  2: { eexists; eexists; exists []. split; [reflexivity|]. cbn.
       rewrite app_nil_r. split; [reflexivity|]. split; [auto|].
       intros ? H; discriminate H. }
  destruct (validateAmount_accepts _ _ _ Hamount) as (-> & _).
  destruct (rem (OAuthGenerate (MpesaConfig.consumerKey config)
                   (MpesaConfig.consumerSecret config)))
    as [token_data|msg em] eqn:Htoken; run.
  2: { eexists; eexists; eexists. split; [reflexivity|]. cbn.
       split; [reflexivity|]. split; [auto|]. intros ? H; discriminate H. }
  destruct (ResponseData.access_token token_data) as [token|] eqn:Haccess; run.
  2: { eexists; eexists; eexists. split; [reflexivity|]. cbn.
       split; [reflexivity|]. split; [auto|]. intros ? H; discriminate H. }
  destruct (String.eqb token EmptyString); run.
  { eexists; eexists; eexists. split; [reflexivity|]. cbn.
    split; [reflexivity|]. split; [auto|]. intros ? H; discriminate H. }
  match goal with
  | |- context [rem (StkPushProcessRequest ?b ?p)] =>
      destruct (rem (StkPushProcessRequest b p)) as [response|msg em]; run
  end.
  - eexists; eexists; eexists. split; [reflexivity|]. cbn.
    rewrite <- app_assoc. split; [reflexivity|].
    split; [|intros; reflexivity].
    right; right. eexists; eexists; exists token_data.
    split; [reflexivity|]. cbn. repeat split; assumption.
  - eexists; eexists; eexists. split; [reflexivity|]. cbn.
    rewrite <- app_assoc. split; [reflexivity|].
    split; [|intros ? H; discriminate H].
    right; right. eexists; eexists; exists token_data.
    split; [reflexivity|]. cbn. repeat split; assumption.
Qed.

Lemma initiateSTKPush_sends_token_then_push_witness :
  exists w',
    MpesaService.initiateSTKPush (Sample.config sandbox)
      (Sample.push_request "0712345678" 100) Cases.offline_world
    = (Throw (Error "STK Push failed: Failed to authenticate with M-Pesa: connect ECONNREFUSED"), w')
    /\ calls w' = [OAuthGenerate "key" "secret"].
Proof.
  destruct (initiateSTKPush_sends_token_then_push (Sample.config sandbox)
              (Sample.push_request "0712345678" 100) Cases.offline_world)
    as (outcome & w' & sent & Hrun & Hcalls & _ & _).
  exists w'. revert Hrun Hcalls. vm_compute. intros [= <- <-] _.
  split; reflexivity.
Defined.


(** X19.  The push-payment route answers 400 "Missing required fields"
    and does nothing else when the body lacks phone, amount or order
    identifier, or has an empty string or the number 0 in its place: an
    amount of 0 never reaches the amount check of the service. *)
Theorem stkpush_route_requires_fields
    (config : MpesaConfig.t) (body : StkPushBody.t) (w : World) :
  StkPushBody.phone body = None \/ StkPushBody.phone body = Some EmptyString
  \/ StkPushBody.amount body = None
  \/ (exists q, StkPushBody.amount body = Some q /\ (q == 0)%Q)
  \/ StkPushBody.orderId body = None
  \/ StkPushBody.orderId body = Some EmptyString ->
  PaymentApi.stkpush config (Some body) w
  = (Ok (Reply.mk 400 false None
           (Some "Missing required fields: phone, amount, orderId") None None),
     w).
Proof.
  intros Hmissing.
  assert (Hfalsy :
    PaymentApi.falsy_string (StkPushBody.phone body)
    || PaymentApi.falsy_number (StkPushBody.amount body)
    || PaymentApi.falsy_string (StkPushBody.orderId body) = true).
  { destruct Hmissing as [H|[H|[H|[(q & H & Hq)|[H|H]]]]]; rewrite H; cbn;
      rewrite ?orb_true_r; try reflexivity.
    rewrite (proj2 (Qeq_bool_iff q 0) Hq), orb_true_r. reflexivity. }
  cbv [PaymentApi.stkpush try_catch bind ret]. rewrite Hfalsy. reflexivity.
Qed.

Lemma stkpush_route_requires_fields_witness :
  PaymentApi.stkpush (Sample.config sandbox)
    (Some (Cases.push_body "0712345678" 0)) Sample.empty_world
  = (Ok (Reply.mk 400 false None
           (Some "Missing required fields: phone, amount, orderId") None None),
     Sample.empty_world).
Proof.
  apply stkpush_route_requires_fields.
  right; right; right; left. exists 0%Q. split; reflexivity.
Defined.









Lemma three_attempts_of_order_o1 :
  fst (TransactionQueries.findByOrderId "o1" Cases.three_attempts)
  = Ok [TxDoc.mk "c" (Cases.transaction_of "o1" "c3" 30);
        TxDoc.mk "a" (Cases.transaction_of "o1" "c1" 10)].
Proof. reflexivity. Qed.

(* ===================================================================== *)
(** * The callback route on the ledger *)
(* ===================================================================== *)

Lemma update_first_none (p : TxDoc.t -> bool) (f : Transaction.t -> Transaction.t)
    (l : list TxDoc.t) :
  List.find p l = None -> TransactionRepository.update_first p f l = l.
Proof.
  induction l as [|x rest IH]; cbn; [reflexivity|].
  destruct (p x); [discriminate|]. intros H. rewrite (IH H). reflexivity.
Qed.

Lemma update_first_twice (p : TxDoc.t -> bool) (f g : Transaction.t -> Transaction.t)
    (l : list TxDoc.t) :
  (forall d, p (TxDoc.mk (TxDoc.id d) (f (TxDoc.data d))) = p d) ->
  TransactionRepository.update_first p g (TransactionRepository.update_first p f l)
  = TransactionRepository.update_first p (fun t => g (f t)) l.
Proof.
  intros Hkeep. induction l as [|x rest IH]; cbn; [reflexivity|].
  destruct (p x) eqn:Hx; cbn.
  - rewrite Hkeep, Hx. reflexivity.
  - rewrite Hx, IH. reflexivity.
Qed.

Lemma find_update_first (p : TxDoc.t -> bool) (f : Transaction.t -> Transaction.t)
    (l : list TxDoc.t) :
  (forall d, p (TxDoc.mk (TxDoc.id d) (f (TxDoc.data d))) = p d) ->
  List.find p l <> None ->
  List.find p (TransactionRepository.update_first p f l) <> None.
Proof.
  intros Hkeep. induction l as [|x rest IH]; cbn; [auto|].
  destruct (p x) eqn:Hx; cbn.
  - rewrite Hkeep, Hx. discriminate.
  - rewrite Hx. exact IH.
Qed.

(** What the callback route does to the world: the ledger becomes
    [Laws.ledger_after], read at the next two instants of the clock, and
    nothing else that is stored or sent changes. *)
Lemma mpesa_callback_world (body : option Callback.t) (w : World) :
  let w' := snd (PaymentRoutes.mpesa_callback body w) in
  mpesa_transactions w'
  = Laws.ledger_after body (clock w (ticks w)) (clock w (S (ticks w)))
      (mpesa_transactions w)
  /\ orders w' = orders w
  /\ user_orders w' = user_orders w
  /\ calls w' = calls w
  /\ minted w' = minted w
  /\ clock w' = clock w
  /\ (ticks w <= ticks w')%nat.
Proof.
  destruct w as [os uos txs clk tk ids mt rnd dr rem cs con].
  unfold Laws.ledger_after, Laws.row_after.
  destruct body as [callback|]; run; [|cbn; repeat split; lia].
  destruct (PaymentRoutes.stk_of callback) as [stk|]; run;
    [|cbn; repeat split; lia].
  destruct (List.find _ txs) as [doc|] eqn:Hfind; run.
  2: { destruct (rc_toString _);
         [rewrite (update_first_none _ _ _ Hfind)|]; cbn; repeat split; lia. }
  assert (Hfound : forall u now,
    List.find
      (TransactionRepository.has_checkout (StkCallback.CheckoutRequestID stk))
      (TransactionRepository.update_first
         (TransactionRepository.has_checkout (StkCallback.CheckoutRequestID stk))
         (TransactionRepository.merge u now) txs) <> None).
  { intros u now. apply find_update_first.
    - intros d. apply has_checkout_merge.
    - rewrite Hfind. discriminate. }
  destruct (StkCallback.ResultCode stk) as [|s|n|r];
    cbn [rc_toString rc_is_string_0]; run; rewrite ?Hfind; run;
    try (cbn; repeat split; lia).
  destruct (String.eqb s "0"); run; [|cbn; repeat split; lia].
  destruct (PaymentRoutes.metadata_items stk) as [items|]; run;
    [|cbn; repeat split; lia].
  match goal with
  | |- context [List.find ?p ?l] =>
      destruct (List.find p l) eqn:Hagain;
        [|exfalso; exact (Hfound _ _ Hagain)]
  end; run.
  rewrite update_first_twice by (intros d; apply has_checkout_merge).
  cbn. repeat split; lia.
Qed.

Lemma has_checkout_true (checkout : string) (d : TxDoc.t) :
  TransactionRepository.has_checkout checkout d = true ->
  Transaction.checkoutRequestId (TxDoc.data d) = Some checkout.
Proof.
  unfold TransactionRepository.has_checkout.
  destruct (Transaction.checkoutRequestId (TxDoc.data d)) as [c|];
    [|discriminate].
  intros H. apply String.eqb_eq in H. rewrite H. reflexivity.
Qed.

Lemma row_after_same_attempt (callback : Callback.t) (stk : StkCallback.t)
    (code : string) (first_at second_at : Date) (d : TxDoc.t) :
  Laws.same_attempt d
    (TxDoc.mk (TxDoc.id d)
       (Laws.row_after callback stk code first_at second_at (TxDoc.data d))).
Proof.
  unfold Laws.same_attempt, Laws.row_after.
  destruct (rc_is_string_0 (StkCallback.ResultCode stk)),
    (PaymentRoutes.metadata_items stk); cbn; repeat split.
Qed.

(** X22.  A callback rewrites at most one row of the ledger.  Either the
    ledger is as it was, or exactly one document was rewritten in place: the
    first one, in the order of the collection, whose checkout-request
    identifier is the callback's.  That document keeps its identifier, its
    order, its gateway identifiers, the first answer of the gateway, its
    error message, its environment and its creation time; every other
    document, and the order of the documents, is untouched. *)
Theorem mpesa_callback_rewrites_one_row
    (body : option Callback.t) (w : World) :
  let l := mpesa_transactions w in
  let l' := mpesa_transactions (snd (PaymentRoutes.mpesa_callback body w)) in
  l' = l
  \/ exists callback stk before d d' after,
       body = Some callback
       /\ PaymentRoutes.stk_of callback = Some stk
       /\ l = (before ++ d :: after)%list
       /\ l' = (before ++ d' :: after)%list
       /\ Forall
            (fun x => Transaction.checkoutRequestId (TxDoc.data x)
                      <> Some (StkCallback.CheckoutRequestID stk))
            before
       /\ Transaction.checkoutRequestId (TxDoc.data d)
          = Some (StkCallback.CheckoutRequestID stk)
       /\ Laws.same_attempt d d'.
Proof.
  cbv zeta.
  destruct (mpesa_callback_world body w) as (Hledger & _).
  cbv zeta in Hledger. rewrite Hledger. clear Hledger.
  unfold Laws.ledger_after.
  destruct body as [callback|]; [|left; reflexivity].
  destruct (PaymentRoutes.stk_of callback) as [stk|] eqn:Hstk; [|left; reflexivity].
  destruct (rc_toString (StkCallback.ResultCode stk)) as [code|e];
    [|left; reflexivity].
  destruct (List.find
              (TransactionRepository.has_checkout (StkCallback.CheckoutRequestID stk))
              (mpesa_transactions w)) as [d|] eqn:Hfind.
  - right.
    destruct (find_split _ _ _ Hfind) as (before & after & Hsplit & Hnone & Hd).
    exists callback, stk, before, d.
    eexists. exists after.
    split; [reflexivity|]. split; [exact Hstk|]. split; [exact Hsplit|].
    split; [rewrite Hsplit; apply update_first_split; assumption|].
    split; [|split; [apply has_checkout_true; exact Hd
                    |apply row_after_same_attempt]].
    clear Hsplit Hfind. induction before as [|x rest IH]; [constructor|].
    cbn in Hnone.
    destruct (TransactionRepository.has_checkout
                (StkCallback.CheckoutRequestID stk) x) eqn:Hx; [discriminate|].
    constructor; [|exact (IH Hnone)].
    intros Heq. unfold TransactionRepository.has_checkout in Hx.
    rewrite Heq, String.eqb_refl in Hx. discriminate Hx.
  - left. apply update_first_none. exact Hfind.
Qed.

Lemma update_first_length (p : TxDoc.t -> bool) (f : Transaction.t -> Transaction.t)
    (l : list TxDoc.t) :
  length (TransactionRepository.update_first p f l) = length l.
Proof.
  induction l as [|x rest IH]; cbn; [reflexivity|].
  destruct (p x); cbn; [reflexivity|]. rewrite IH. reflexivity.
Qed.

(** X23.  The callback route writes to the ledger only.  Whatever it
    receives, the orders and their index stay as they were, no request
    leaves the service and no document is created: a confirmed payment
    changes neither the status nor the payment status of its order. *)
Theorem mpesa_callback_leaves_orders_alone
    (body : option Callback.t) (w : World) :
  let w' := snd (PaymentRoutes.mpesa_callback body w) in
  orders w' = orders w
  /\ user_orders w' = user_orders w
  /\ calls w' = calls w
  /\ minted w' = minted w
  /\ length (mpesa_transactions w') = length (mpesa_transactions w)
  /\ forall id, fst (OrderService.getOrder id w') = fst (OrderService.getOrder id w).
Proof.
  cbv zeta.
  destruct (mpesa_callback_world body w)
    as (Hledger & Horders & Hindex & Hcalls & Hminted & _).
  cbv zeta in *.
  split; [exact Horders|]. split; [exact Hindex|]. split; [exact Hcalls|].
  split; [exact Hminted|]. split.
  - rewrite Hledger. unfold Laws.ledger_after.
    destruct body as [callback|]; [|reflexivity].
    destruct (PaymentRoutes.stk_of callback) as [stk|]; [|reflexivity].
    destruct (rc_toString _); [|reflexivity].
    apply update_first_length.
  - intros id. unfold OrderService.getOrder, OrderRepository.findById.
    cbv [bind ret throw]. cbn. rewrite Horders. reflexivity.
Qed.

Lemma touch_self (t : Transaction.t) :
  t = Laws.touch (Transaction.updatedAt t) t.
Proof. destruct t. reflexivity. Qed.

Lemma update_first_Forall2 (R : TxDoc.t -> TxDoc.t -> Prop)
    (p : TxDoc.t -> bool) (f g : Transaction.t -> Transaction.t)
    (l : list TxDoc.t) :
  (forall d, R d d) ->
  (forall d, R (TxDoc.mk (TxDoc.id d) (f (TxDoc.data d)))
               (TxDoc.mk (TxDoc.id d) (g (TxDoc.data d)))) ->
  Forall2 R (TransactionRepository.update_first p f l)
    (TransactionRepository.update_first p g l).
Proof.
  intros Hrefl Hfg. induction l as [|x rest IH]; cbn; [constructor|].
  destruct (p x).
  - constructor; [apply Hfg|]. apply Forall_Forall2_diag, Forall_forall.
    intros d _. apply Hrefl.
  - constructor; [apply Hrefl|exact IH].
Qed.

Lemma row_after_again (callback : Callback.t) (stk : StkCallback.t)
    (code : string) (t1 t2 t3 t4 : Date) (t : Transaction.t) :
  let once := Laws.row_after callback stk code t1 t2 t in
  let twice := Laws.row_after callback stk code t3 t4 once in
  twice = Laws.touch (Transaction.updatedAt twice) once.
Proof.
  cbv zeta. unfold Laws.row_after.
  destruct (rc_is_string_0 (StkCallback.ResultCode stk));
    [destruct (PaymentRoutes.metadata_items stk) as [items|]|];
    rewrite ?merge_collect; unfold Spec.with_receipt, TransactionRepository.merge,
      Laws.touch; cbn; try reflexivity.
  destruct (Spec.named "Amount" items), (Spec.named "MpesaReceiptNumber" items),
    (Spec.named "TransactionDate" items), (Spec.named "PhoneNumber" items);
    reflexivity.
Qed.

(** X24.  Delivering the same callback a second time changes nothing but
    modification times: after the second delivery every ledger document
    has the identifier and the data it had after the first, except for
    [updatedAt]. *)
Theorem mpesa_callback_replay_only_touches_updatedAt
    (body : option Callback.t) (w : World) :
  let once := snd (PaymentRoutes.mpesa_callback body w) in
  let twice := snd (PaymentRoutes.mpesa_callback body once) in
  Laws.same_but_updatedAt (mpesa_transactions once) (mpesa_transactions twice).
Proof.
  cbv zeta.
  destruct (mpesa_callback_world body (snd (PaymentRoutes.mpesa_callback body w)))
    as (Htwice & _).
  destruct (mpesa_callback_world body w) as (Honce & _).
  cbv zeta in *. rewrite Htwice, Honce.
  generalize (clock w (ticks w)), (clock w (S (ticks w))),
    (clock (PaymentRoutes.mpesa_callback body w).2
       (ticks (PaymentRoutes.mpesa_callback body w).2)),
    (clock (PaymentRoutes.mpesa_callback body w).2
       (S (ticks (PaymentRoutes.mpesa_callback body w).2))),
    (mpesa_transactions w).
  clear. intros t1 t2 t3 t4 l.
  assert (Hrefl : forall l0, Laws.same_but_updatedAt l0 l0).
  { intros l0. apply Forall_Forall2_diag, Forall_forall. intros d _.
    split; [reflexivity|apply touch_self]. }
  unfold Laws.ledger_after.
  destruct body as [callback|]; [|apply Hrefl].
  destruct (PaymentRoutes.stk_of callback) as [stk|]; [|apply Hrefl].
  destruct (rc_toString (StkCallback.ResultCode stk)) as [code|e]; [|apply Hrefl].
  rewrite update_first_twice.
  2: { intros d. apply has_checkout_data.
       destruct (row_after_same_attempt callback stk code t1 t2 d)
         as (_ & _ & _ & Hc & _). cbn in Hc. symmetry. exact Hc. }
  apply update_first_Forall2.
  - intros d. split; [reflexivity|apply touch_self].
  - intros d. split; [reflexivity|]. cbn [TxDoc.data].
    apply row_after_again.
Qed.

(* ===================================================================== *)
(** * From the push request to its callback *)
(* ===================================================================== *)




